(** * PMC chatbot: retrieval-augmented generation core

    A shallow embedding of [utils.py], [vector_store.py], [chatbot.py] and
    [scraper.py].

    - A Python [str] is a [string]; [len], indexing and slicing follow
      Python's rules for negative and out-of-range positions.
    - A Python [int] is a [Z]; a [float] is a binary64 [float].
    - A call either returns or raises; [try: ... except Exception] handles
      the [Raise] case, and what was mutated before the exception stays
      mutated. Where the [except] clause names one class of exceptions, as
      in [get_page_content], the others go through.
    - The [while] loop takes fuel; [None] is a run that used it all up.
    - Lists and dicts that the program mutates live in an object store and
      are named by their address, so that aliasing is visible. *)

From Stdlib Require Import ZArith Lia Ascii String List Bool Floats DecimalString.
From Stdlib Require Import DecimalPos DecimalZ.
From stdpp Require Import base option list strings gmap.
Import ListNotations.

Local Open Scope string_scope.
Local Open Scope list_scope.

(** ** Exceptions and results *)

Inductive exn : Type :=
| IndexError
| TypeError
| ExternalError (msg : string).

(** [str(e)] *)
Definition str_exn (e : exn) : string :=
  match e with
  | IndexError => "list index out of range"
  | TypeError => "'NoneType' object is not subscriptable"
  | ExternalError msg => msg
  end.

Inductive result (A : Type) : Type :=
| Return (a : A)
| Raise (e : exn).
Arguments Return {A} a.
Arguments Raise {A} e.

(** ** utils.py *)

Module Utils.
Local Open Scope Z_scope.

Definition len (s : string) : Z := Z.of_nat (String.length s).

(** [c.isspace()] for the code points below 256. *)
Definition is_space (c : ascii) : bool :=
  let n := Z.of_N (N_of_ascii c) in
  ((9 <=? n) && (n <=? 13)) || ((28 <=? n) && (n <=? 32))
  || (n =? 133) || (n =? 160).

Fixpoint lstrip (s : string) : string :=
  match s with
  | EmptyString => EmptyString
  | String c s' => if is_space c then lstrip s' else s
  end.

Fixpoint rstrip (s : string) : string :=
  match s with
  | EmptyString => EmptyString
  | String c s' =>
      match rstrip s' with
      | EmptyString => if is_space c then EmptyString else String c EmptyString
      | r => String c r
      end
  end.

(** [s.strip()] *)
Definition strip (s : string) : string := lstrip (rstrip s).

(** A slice bound: negative positions count from the end, and the result is
    clamped to [0, len]. *)
Definition slice_bound (n i : Z) : Z :=
  let i := if i <? 0 then i + n else i in
  Z.min n (Z.max 0 i).

(** [s[a:b]] *)
Definition slice (s : string) (a b : Z) : string :=
  let a' := slice_bound (len s) a in
  let b' := slice_bound (len s) b in
  substring (Z.to_nat a') (Z.to_nat (b' - a')) s.

(** [s[i]]: [None] stands for IndexError. *)
Definition index (s : string) (i : Z) : option ascii :=
  let i := if i <? 0 then i + len s else i in
  if (i <? 0) || (len s <=? i) then None else String.get (Z.to_nat i) s.

(** [c in '.!?'] for a one-character string [c]. *)
Definition is_sentence_end (c : ascii) : bool :=
  existsb (Ascii.eqb c) (list_ascii_of_string ".!?").

(** The inner [for i in range(end, lo, -1)] loop, at index [i] with [n]
    indices left: the new [end] when a sentence end is found, [None] when
    the range is exhausted. *)
Fixpoint find_boundary (text : string) (i : Z) (n : nat) : result (option Z) :=
  match n with
  | O => Return None
  | S n' =>
      match index text i with
      | None => Raise IndexError
      | Some c =>
          if is_sentence_end c then Return (Some (i + 1))
          else find_boundary text (i - 1) n'
      end
  end.

(** What one pass through the body of the [while] loop leaves behind. *)
Inductive step : Type :=
| Next (start : Z) (chunks : list string)
| Break (chunks : list string).

Definition chunk_body (text : string) (chunk_size overlap : Z)
    (start : Z) (chunks : list string) : result step :=
  let end_ := start + chunk_size in
  let found :=
    if end_ <? len text then
      let lo := Z.max (start + chunk_size - 100) start in
      find_boundary text end_ (Z.to_nat (end_ - lo))
    else Return None in
  match found with
  | Raise e => Raise e
  | Return b =>
      let end_ := match b with Some e => e | None => end_ end in
      let chunk := strip (slice text start end_) in
      let chunks := if String.eqb chunk "" then chunks else chunks ++ [chunk] in
      let start := end_ - overlap in
      if len text <=? start then Return (Break chunks)
      else Return (Next start chunks)
  end.

Fixpoint chunk_loop (fuel : nat) (text : string) (chunk_size overlap : Z)
    (start : Z) (chunks : list string) : option (result (list string)) :=
  match fuel with
  | O => None
  | S fuel' =>
      if start <? len text then
        match chunk_body text chunk_size overlap start chunks with
        | Return (Next start' chunks') =>
            chunk_loop fuel' text chunk_size overlap start' chunks'
        | Return (Break chunks') => Some (Return chunks')
        | Raise e => Some (Raise e)
        end
      else Some (Return chunks)
  end.

Definition chunk_text (fuel : nat) (text : string)
    (chunk_size overlap : Z) : option (result (list string)) :=
  if len text <=? chunk_size then Some (Return [text])
  else chunk_loop fuel text chunk_size overlap 0 [].

(** [re.sub(r'\s+', ' ', s)]: every maximal run of whitespace becomes one
    space. [in_run] tells that the character before was whitespace. *)
Fixpoint collapse_spaces (in_run : bool) (s : string) : string :=
  match s with
  | EmptyString => EmptyString
  | String c s' =>
      if is_space c then
        if in_run then collapse_spaces true s'
        else String " " (collapse_spaces true s')
      else String c (collapse_spaces false s')
  end.

(** [\w] for the code points below 256: the characters for which
    [isalnum()] holds, and the underscore. *)
Definition is_word (c : ascii) : bool :=
  let n := Z.of_N (N_of_ascii c) in
  ((48 <=? n) && (n <=? 57)) || ((65 <=? n) && (n <=? 90))
  || ((97 <=? n) && (n <=? 122)) || (n =? 95)
  || (n =? 170) || (n =? 178) || (n =? 179) || (n =? 181)
  || (n =? 185) || (n =? 186) || ((188 <=? n) && (n <=? 190))
  || ((192 <=? n) && (n <=? 214)) || ((216 <=? n) && (n <=? 246))
  || ((248 <=? n) && (n <=? 255)).

(** The class [\w\s\.\,\!\?\:\;\-\(\)] of the characters that stay. *)
Definition is_kept (c : ascii) : bool :=
  is_word c || is_space c
  || existsb (Ascii.eqb c) (list_ascii_of_string ".,!?:;-()").

(** [re.sub(r'[^...]', '', s)] *)
Fixpoint remove_special (s : string) : string :=
  match s with
  | EmptyString => EmptyString
  | String c s' =>
      if is_kept c then String c (remove_special s') else remove_special s'
  end.

Definition clean_text (text : string) : string :=
  if String.eqb text "" then ""
  else
    let text := collapse_spaces false (strip text) in
    remove_special text.

Definition truncate_text (text : string) (max_length : Z) : string :=
  if len text <=? max_length then text
  else slice text 0 max_length ++ "...".

End Utils.

(** ** Formatting *)

(** [str(n)] for an int, as an f-string renders it. *)
Definition str_int (n : Z) : string := NilZero.string_of_int (Z.to_int n).

(** The newline character of the string literals. *)
Definition nl : string := String (ascii_of_nat 10) EmptyString.

(** [sep.join(parts)] *)
Definition join (sep : string) (parts : list string) : string :=
  String.concat sep parts.

(** ** Data *)

(** A metadata value is a str or an int. *)
Inductive mval : Type :=
| MStr (s : string)
| MInt (n : Z).

(** How an f-string renders a metadata value. *)
Definition str_mval (v : mval) : string :=
  match v with
  | MStr s => s
  | MInt n => str_int n
  end.

(** A scraped document; [None] is a missing key. *)
Record document : Type := {
  doc_url : option string;
  doc_title : option string;
  doc_chunks : option (list string);
  doc_metadata : option (gmap string mval)
}.

(** What [collection.query] returns for the three included fields. *)
Record query_result : Type := {
  documents : option (list (list string));
  metadatas : option (list (list (gmap string mval)));
  distances : option (list (list float))
}.

Record search_result : Type := {
  content : string;
  metadata : gmap string mval;
  similarity_score : float;
  rank : Z
}.

Record config : Type := {
  model_name : string;
  temperature : float;
  max_tokens : Z;
  embedding_model_name : string
}.

(** A chat message sent to the completion service. *)
Record message : Type := {
  m_role : string;
  m_content : string
}.

(** A conversation turn, the dict appended to the history. *)
Record turn : Type := {
  role : string;
  t_content : string;
  timestamp : string
}.

(** The dict that [get_response] returns: the normal one or the one built
    in the [except] branch. *)
Inductive response : Type :=
| ResponseData (resp : option string) (context_used : bool)
    (context_length : Z) (time : string) (model_used : string)
| ErrorResponse (resp : string) (error : string) (time : string).

Record collection_stats : Type := {
  total_documents : Z;
  collection_name : string;
  embedding_model : string
}.

(** [None] is the empty dict of the [except] branch. *)
Record system_info : Type := {
  si_model_name : string;
  si_temperature : float;
  si_max_tokens : Z;
  vector_store_stats : option collection_stats;
  conversation_length : Z
}.

(** ** External collaborators

    The embedding model, the Chroma collection, the data file and the
    completion service are black boxes. [coll] is the state of the
    collection; every call may raise. *)

Record services (coll : Type) : Type := {
  encode : list string -> result (list (list float));
  coll_count : coll -> result Z;
  coll_add : coll -> list (list float) -> list string ->
             list (gmap string mval) -> list string -> result coll;
  coll_query : coll -> list (list float) -> Z -> result query_result;
  load_data : string -> result (list document);
  complete : string -> list message -> float -> Z ->
             result (list (option string));
  now : nat -> string
}.
Arguments encode {coll} _ _.
Arguments coll_count {coll} _ _.
Arguments coll_add {coll} _ _ _ _ _ _.
Arguments coll_query {coll} _ _ _ _.
Arguments load_data {coll} _ _.
Arguments complete {coll} _ _ _ _ _.
Arguments now {coll} _ _.

(** ** The object store and the program state *)

(** A mutable object: a list of addresses or a turn dict. *)
Inductive obj : Type :=
| OList (items : list nat)
| ODict (t : turn).

Inductive level : Type := INFO | WARNING | ERROR.

Record state (coll : Type) : Type := {
  heap : list obj;
  collection : coll;
  log : list (level * string);
  clock : nat
}.
Arguments heap {coll} _.
Arguments collection {coll} _.
Arguments log {coll} _.
Arguments clock {coll} _.
Arguments Build_state {coll} _ _ _ _.

(** A computation reads and writes the state and returns or raises. *)
Definition M (coll A : Type) : Type := state coll -> result A * state coll.

Section Monad.
Context {coll : Type}.

Definition ret {A} (a : A) : M coll A := fun s => (Return a, s).

Definition bind {A B} (m : M coll A) (k : A -> M coll B) : M coll B :=
  fun s =>
    match m s with
    | (Return a, s') => k a s'
    | (Raise e, s') => (Raise e, s')
    end.

(** The result of a call that may raise. *)
Definition lift {A} (o : result A) : M coll A := fun s => (o, s).

(** [try: body except Exception as e: handler] *)
Definition try_except {A} (body : M coll A) (handler : exn -> M coll A)
    : M coll A :=
  fun s =>
    match body s with
    | (Raise e, s') => handler e s'
    | r => r
    end.

Definition get_collection : M coll coll := fun s => (Return (collection s), s).

Definition set_collection (c : coll) : M coll unit :=
  fun s => (Return tt, Build_state (heap s) c (log s) (clock s)).

Definition logger (lv : level) (msg : string) : M coll unit :=
  fun s => (Return tt, Build_state (heap s) (collection s)
                         (log s ++ [(lv, msg)]) (clock s)).

(** [datetime.now().isoformat()] *)
Definition timestamp_now (svc : services coll) : M coll string :=
  fun s => (Return (now svc (clock s)),
            Build_state (heap s) (collection s) (log s) (S (clock s))).

(** A new object, at the next free address. *)
Definition alloc (o : obj) : M coll nat :=
  fun s => (Return (length (heap s)),
            Build_state (heap s ++ [o]) (collection s) (log s) (clock s)).

Definition read_list (l : nat) : M coll (list nat) :=
  fun s =>
    match heap s !! l with
    | Some (OList items) => (Return items, s)
    | _ => (Raise TypeError, s)
    end.

Definition read_dict (d : nat) : M coll turn :=
  fun s =>
    match heap s !! d with
    | Some (ODict t) => (Return t, s)
    | _ => (Raise TypeError, s)
    end.

(** Overwrites the items of the list at [l], in place. *)
Definition write_list (l : nat) (items : list nat) : M coll unit :=
  fun s =>
    match heap s !! l with
    | Some (OList _) =>
        (Return tt, Build_state (<[l := OList items]> (heap s))
                      (collection s) (log s) (clock s))
    | _ => (Raise TypeError, s)
    end.

End Monad.

Declare Scope monad_scope.
Delimit Scope monad_scope with monad.
Notation "x <- m ;; k" := (bind m (fun x => k))
  (at level 100, m at next level, right associativity) : monad_scope.
Notation "m ;; k" := (bind m (fun _ => k))
  (at level 100, right associativity) : monad_scope.

(** ** vector_store.py *)

Module VectorStore.
Import Utils.
Local Open Scope Z_scope.
Local Open Scope monad_scope.

(** The metadata dict of chunk [j] of [doc]; the keys of the document's
    own metadata come last in the literal and win. *)
Definition chunk_metadata (doc : document) (j : Z) : gmap string mval :=
  default ∅ (doc_metadata doc)
  ∪ <["url" := MStr (default "" (doc_url doc))]>
     (<["title" := MStr (default "" (doc_title doc))]>
      (<["chunk_index" := MInt j]>
       (<["total_chunks" :=
            MInt (Z.of_nat (length (default [] (doc_chunks doc))))]> ∅))).

Definition chunk_id (i j : Z) : string :=
  "doc_" ++ str_int i ++ "_chunk_" ++ str_int j.

(** The inner loop of [add_documents] over the chunks of document [i],
    from chunk [j] on: text, metadata and id of every chunk kept. *)
Fixpoint doc_entries (i : Z) (doc : document) (j : Z) (chunks : list string)
    : list (string * gmap string mval * string) :=
  match chunks with
  | [] => []
  | chunk :: rest =>
      (if String.eqb (strip chunk) "" then []
       else [(chunk, chunk_metadata doc j, chunk_id i j)])
      ++ doc_entries i doc (j + 1) rest
  end.

(** The outer loop, from document [i] on. *)
Fixpoint all_entries (i : Z) (docs : list document)
    : list (string * gmap string mval * string) :=
  match docs with
  | [] => []
  | doc :: rest =>
      doc_entries i doc 0 (default [] (doc_chunks doc))
      ++ all_entries (i + 1) rest
  end.

(** The loop of [search] over [enumerate(zip(...))], from index [i] on. *)
Fixpoint format_loop (i : Z) (docs : list string)
    (metas : list (gmap string mval)) (dists : list float)
    : list search_result :=
  match docs, metas, dists with
  | doc :: docs', meta :: metas', distance :: dists' =>
      {| content := doc;
         metadata := meta;
         similarity_score := (1 - distance)%float;
         rank := i + 1 |} :: format_loop (i + 1) docs' metas' dists'
  | _, _, _ => []
  end.

(** [xs[0]] on a value that may be [None]. *)
Definition first {A} (xs : option (list A)) : result A :=
  match xs with
  | None => Raise TypeError
  | Some [] => Raise IndexError
  | Some (x :: _) => Return x
  end.

Definition format_results (results : query_result)
    : result (list search_result) :=
  match documents results with
  | Some ((_ :: _) as docs :: _) =>
      match first (metadatas results) with
      | Return metas =>
          match first (distances results) with
          | Return dists => Return (format_loop 0 docs metas dists)
          | Raise e => Raise e
          end
      | Raise e => Raise e
      end
  | _ => Return []
  end.

(** The labelled block of one result. *)
Definition block (result : search_result) : string :=
  "Source: " ++ str_mval (default (MStr "Unknown") (metadata result !! "title"))
  ++ nl ++ content result.

(** The loop of [get_relevant_context], with its [break]. *)
Fixpoint context_loop (results : list search_result) (max_tokens : Z)
    (context_parts : list string) (current_tokens : Z)
    : list string * Z :=
  match results with
  | [] => (context_parts, current_tokens)
  | result :: rest =>
      let estimated_tokens := len (content result) / 4 in
      if current_tokens + estimated_tokens >? max_tokens
      then (context_parts, current_tokens)
      else context_loop rest max_tokens (context_parts ++ [block result])
             (current_tokens + estimated_tokens)
  end.

(** The context string built from the results of a search. *)
Definition assemble (results : list search_result) (max_tokens : Z)
    : string * Z :=
  let '(context_parts, current_tokens) :=
    context_loop results max_tokens [] 0 in
  (join (nl ++ nl) context_parts, current_tokens).

Section WithServices.
Context {coll : Type} (svc : services coll) (cfg : config).

Definition create_embeddings (texts : list string)
    : M coll (list (list float)) :=
  try_except
    (embeddings <- lift (encode svc texts) ;;
     ret embeddings)
    (fun e =>
       logger ERROR ("Error creating embeddings: " ++ str_exn e) ;;
       ret []).

Definition add_documents (docs : list document) : M coll bool :=
  try_except
    (let entries := all_entries 0 docs in
     let all_texts := map (fun e => fst (fst e)) entries in
     let all_metadatas := map (fun e => snd (fst e)) entries in
     let all_ids := map snd entries in
     match all_texts with
     | [] =>
         logger WARNING "No valid texts to add to vector store" ;;
         ret false
     | _ =>
         embeddings <- create_embeddings all_texts ;;
         match embeddings with
         | [] =>
             logger ERROR "Failed to create embeddings" ;;
             ret false
         | _ =>
             c <- get_collection ;;
             c' <- lift (coll_add svc c embeddings all_texts
                           all_metadatas all_ids) ;;
             set_collection c' ;;
             logger INFO ("Added " ++ str_int (Z.of_nat (length all_texts))
                          ++ " document chunks to vector store") ;;
             ret true
         end
     end)
    (fun e =>
       logger ERROR ("Error adding documents to vector store: "
                     ++ str_exn e) ;;
       ret false).

Definition search (query : string) (n_results : Z)
    : M coll (list search_result) :=
  try_except
    (query_embedding <- lift (encode svc [query]) ;;
     c <- get_collection ;;
     results <- lift (coll_query svc c query_embedding n_results) ;;
     formatted_results <- lift (format_results results) ;;
     logger INFO ("Found " ++ str_int (Z.of_nat (length formatted_results))
                  ++ " relevant documents for query: "
                  ++ slice query 0 50 ++ "...") ;;
     ret formatted_results)
    (fun e =>
       logger ERROR ("Error searching vector store: " ++ str_exn e) ;;
       ret []).

Definition get_collection_stats : M coll (option collection_stats) :=
  try_except
    (c <- get_collection ;;
     count <- lift (coll_count svc c) ;;
     ret (Some {| total_documents := count;
                  collection_name := "pmc_documents";
                  embedding_model := embedding_model_name cfg |}))
    (fun e =>
       logger ERROR ("Error getting collection stats: " ++ str_exn e) ;;
       ret None).

Definition load_and_index_data (data_file : string) : M coll bool :=
  try_except
    (c <- get_collection ;;
     count <- lift (coll_count svc c) ;;
     if count >? 0 then
       logger INFO "Vector store already contains data. Skipping indexing." ;;
       ret true
     else
       docs <- lift (load_data svc data_file) ;;
       match docs with
       | [] =>
           logger WARNING ("No data found in " ++ data_file) ;;
           ret false
       | _ =>
           success <- add_documents docs ;;
           (if success : bool then
              logger INFO ("Successfully indexed "
                           ++ str_int (Z.of_nat (length docs))
                           ++ " documents")
            else logger ERROR "Failed to index documents") ;;
           ret success
       end)
    (fun e =>
       logger ERROR ("Error loading and indexing data: " ++ str_exn e) ;;
       ret false).

Definition get_relevant_context (query : string) (max_tokens : Z)
    : M coll string :=
  try_except
    (results <- search query 10 ;;
     match results with
     | [] => ret ""
     | _ =>
         let '(context, current_tokens) := assemble results max_tokens in
         logger INFO ("Generated context with ~" ++ str_int current_tokens
                      ++ " tokens") ;;
         ret context
     end)
    (fun e =>
       logger ERROR ("Error getting relevant context: " ++ str_exn e) ;;
       ret "").

End WithServices.
End VectorStore.

(** ** chatbot.py *)

Module Chatbot.
Import Utils VectorStore.
Local Open Scope Z_scope.
Local Open Scope monad_scope.

(** The attributes of a [PMCChatbot]; [conversation_history] is the address
    of the list object. *)
Record PMCChatbot : Type := {
  system_prompt : string;
  conversation_history : nat
}.

(** [value or ""] *)
Definition or_empty (value : option string) : string :=
  match value with
  | Some s => if String.eqb s "" then "" else s
  | None => ""
  end.

Definition context_message (context : string) : string :=
  "Use the following information from the PMO website to answer the user's question:"
  ++ nl ++ nl ++ context ++ nl ++ nl
  ++ "Please provide a helpful response based on this information. If the information doesn't answer the question completely, say so.".

Definition apology : string :=
  "I apologize, but I'm experiencing technical difficulties. Please try again later.".

Section WithServices.
Context {coll : Type} (svc : services coll) (cfg : config).

(** [the_list.append(x)] *)
Definition list_append (l x : nat) : M coll unit :=
  items <- read_list l ;;
  write_list l (items ++ [x]).

(** [the_list[a:]], a new list object. *)
Definition list_slice_from (l : nat) (a : Z) : M coll nat :=
  items <- read_list l ;;
  let n := Z.of_nat (length items) in
  alloc (OList (drop (Z.to_nat (slice_bound n a)) items)).

(** The loop over [recent_history]. *)
Fixpoint history_loop (recent : list nat) (messages : list message)
    : M coll (list message) :=
  match recent with
  | [] => ret messages
  | msg :: rest =>
      t <- read_dict msg ;;
      if String.eqb (role t) "user" then
        history_loop rest
          (messages ++ [{| m_role := "user"; m_content := t_content t |}])
      else if String.eqb (role t) "assistant" then
        history_loop rest
          (messages ++ [{| m_role := "assistant"; m_content := t_content t |}])
      else history_loop rest messages
  end.

(** The messages for the completion service: the part of [get_response]
    from "Build messages" up to the call. *)
Definition build_messages (self : PMCChatbot) (context : string)
    : M coll (list message) :=
  let messages := [{| m_role := "system"; m_content := system_prompt self |}] in
  let messages :=
    if String.eqb context "" then messages
    else messages ++ [{| m_role := "system";
                         m_content := context_message context |}] in
  recent_history <- list_slice_from (conversation_history self) (-10) ;;
  recent <- read_list recent_history ;;
  history_loop recent messages.

Definition get_response (self : PMCChatbot) (user_message : string)
    (use_context : bool) : M coll response :=
  try_except
    (ts <- timestamp_now svc ;;
     d <- alloc (ODict {| role := "user"; t_content := user_message;
                          timestamp := ts |}) ;;
     list_append (conversation_history self) d ;;
     context <- (if use_context
                 then get_relevant_context svc user_message 2000
                 else ret "") ;;
     messages <- build_messages self context ;;
     choices <- lift (complete svc (model_name cfg) messages
                        (temperature cfg) (max_tokens cfg)) ;;
     assistant_message <- lift (first (Some choices)) ;;
     ts <- timestamp_now svc ;;
     d <- alloc (ODict {| role := "assistant";
                          t_content := or_empty assistant_message;
                          timestamp := ts |}) ;;
     list_append (conversation_history self) d ;;
     ts <- timestamp_now svc ;;
     logger INFO ("Generated response for: " ++ slice user_message 0 50
                  ++ "...") ;;
     ret (ResponseData assistant_message
            (negb (String.eqb context "")) (len context) ts
            (model_name cfg)))
    (fun e =>
       logger ERROR ("Error generating response: " ++ str_exn e) ;;
       ts <- timestamp_now svc ;;
       ret (ErrorResponse apology (str_exn e) ts)).

Definition search_documents (query : string) (n_results : Z)
    : M coll (list search_result) :=
  try_except
    (results <- search svc query n_results ;;
     ret results)
    (fun e =>
       logger ERROR ("Error searching documents: " ++ str_exn e) ;;
       ret []).

(** [self.conversation_history.copy()], a new list object. *)
Definition get_conversation_history (self : PMCChatbot) : M coll nat :=
  items <- read_list (conversation_history self) ;;
  alloc (OList items).

Definition clear_conversation_history (self : PMCChatbot) : M coll unit :=
  write_list (conversation_history self) [] ;;
  logger INFO "Conversation history cleared".

(** [None] is the empty dict of the [except] branch. *)
Definition get_system_info (self : PMCChatbot) : M coll (option system_info) :=
  try_except
    (stats <- get_collection_stats svc cfg ;;
     items <- read_list (conversation_history self) ;;
     ret (Some {| si_model_name := model_name cfg;
                  si_temperature := temperature cfg;
                  si_max_tokens := max_tokens cfg;
                  vector_store_stats := stats;
                  conversation_length := Z.of_nat (length items) |}))
    (fun e =>
       logger ERROR ("Error getting system info: " ++ str_exn e) ;;
       ret None).

Definition initialize_data (self : PMCChatbot) : M coll bool :=
  try_except
    (logger INFO "Initializing chatbot data..." ;;
     success <- load_and_index_data svc "data/pmc_scraped_data.json" ;;
     (if success : bool
      then logger INFO "Chatbot initialized successfully"
      else logger WARNING "Chatbot initialized with limited data") ;;
     ret success)
    (fun e =>
       logger ERROR ("Error initializing chatbot: " ++ str_exn e) ;;
       ret false).

End WithServices.

End Chatbot.


(** ** scraper.py *)

Module Scraper.
Import Utils.
Local Open Scope Z_scope.

(** The dict of one scraped page. *)
Record page : Type := {
  p_url : string;
  p_title : string;
  p_content : string;
  p_chunks : list string;
  p_metadata : gmap string mval
}.

(** What the request and the parsing of its response may do: give the
    parsed page, raise a [requests.RequestException] with its text, or
    raise any other exception. *)
Inductive fetched (soup : Type) : Type :=
  | Fetched (page : soup)
  | RequestException (msg : string)
  | OtherException (e : exn).
Arguments Fetched {soup} _.
Arguments RequestException {soup} _.
Arguments OtherException {soup} _.

(** The network, the clock and the HTML library, as black boxes over the
    parsed page [soup]. [get] is [session.get] with [raise_for_status] and
    the parsing of the response, at a given tick of the outside world;
    [sleep] is [time.sleep], which raises for a delay it does not accept.
    The selections of [select] and [get_text] are made after the script,
    style, nav, footer and header elements are removed; [select_one] and
    [hrefs] read the page as fetched. [set_order] is the order in which
    [list(set(...))] lists the distinct elements. *)
Record web (soup : Type) : Type := {
  get : nat -> string -> fetched soup;
  sleep : float -> result unit;
  select_one : soup -> string -> option string;
  select : soup -> string -> list string;
  get_text : soup -> string;
  hrefs : soup -> list string;
  urljoin : string -> string -> string;
  set_order : list string -> list string;
  strftime : nat -> string
}.
Arguments get {soup} _ _ _.
Arguments sleep {soup} _ _.
Arguments select_one {soup} _ _ _.
Arguments select {soup} _ _ _.
Arguments get_text {soup} _ _.
Arguments hrefs {soup} _ _.
Arguments urljoin {soup} _ _ _.
Arguments set_order {soup} _ _.
Arguments strftime {soup} _ _.

(** The mutable attributes of a [PMCScraper], the tick of the outside
    world and the log. *)
Record scraper : Type := {
  visited_urls : gset string;
  scraped_data : list page;
  ticks : nat;
  s_log : list (level * string)
}.

Definition slog (lv : level) (msg : string) (st : scraper) : scraper :=
  {| visited_urls := visited_urls st; scraped_data := scraped_data st;
     ticks := ticks st; s_log := s_log st ++ [(lv, msg)] |}.

Definition tick (st : scraper) : scraper :=
  {| visited_urls := visited_urls st; scraped_data := scraped_data st;
     ticks := S (ticks st); s_log := s_log st |}.

Definition visit (url : string) (st : scraper) : scraper :=
  {| visited_urls := {[url]} ∪ visited_urls st;
     scraped_data := scraped_data st;
     ticks := ticks st; s_log := s_log st |}.

Definition append_page (p : page) (st : scraper) : scraper :=
  {| visited_urls := visited_urls st;
     scraped_data := scraped_data st ++ [p];
     ticks := ticks st; s_log := s_log st |}.

(** [needle in hay] *)
Fixpoint contains (needle hay : string) : bool :=
  String.prefix needle hay
  || match hay with
     | EmptyString => false
     | String _ rest => contains needle rest
     end.

Section WithWeb.
Context {soup : Type} (w : web soup) (request_delay : float)
  (base_url : string) (max_pages : Z).

(** The [except] clause catches a [RequestException] only: any other
    exception of the request, and the one of [time.sleep], leave
    [get_page_content]. *)
Definition get_page_content (url : string) (st : scraper)
    : result (option soup) * scraper :=
  let st := slog INFO ("Fetching: " ++ url) st in
  match get w (ticks st) url with
  | Fetched page =>
      match sleep w request_delay with
      | Return _ => (Return (Some page), tick st)
      | Raise e => (Raise e, tick st)
      end
  | RequestException msg =>
      (Return None,
       slog ERROR ("Error fetching " ++ url ++ ": " ++ msg) (tick st))
  | OtherException e => (Raise e, tick st)
  end.

(** The loop of [extract_text_content] over the content selectors. *)
Fixpoint first_selected (page : soup) (selectors : list string) : string :=
  match selectors with
  | [] => ""
  | selector :: rest =>
      match select w page selector with
      | [] => first_selected page rest
      | elements => join " " elements
      end
  end.

Definition extract_text_content (page : soup) : string :=
  let content :=
    first_selected page
      ["main"; "article"; ".content"; ".main-content";
       "#content"; "#main"; ".post-content"; ".entry-content"] in
  let content :=
    if String.eqb content "" then get_text w page else content in
  clean_text content.

(** The loop of [extract_title] over the title selectors. *)
Fixpoint first_title (page : soup) (selectors : list string) : string :=
  match selectors with
  | [] => ""
  | selector :: rest =>
      match select_one w page selector with
      | Some text =>
          let title := strip text in
          if String.eqb title "" then first_title page rest else title
      | None => first_title page rest
      end
  end.

Definition extract_title (page : soup) : string :=
  first_title page ["h1"; ".title"; ".page-title"; "title"].

(** The loop of [extract_links] over the anchors. *)
Fixpoint collect_links (anchors : list string) (base : string)
    (visited : gset string) (links : list string) : list string :=
  match anchors with
  | [] => links
  | href :: rest =>
      let kept :=
        if String.prefix "/" href then Some (urljoin w base href)
        else if String.prefix "http" href then
          if contains base_url href then Some href else None
        else None in
      match kept with
      | None => collect_links rest base visited links
      | Some href =>
          let href := urljoin w base href in
          if decide (href ∈ visited)
          then collect_links rest base visited links
          else collect_links rest base visited (links ++ [href])
      end
  end.

Definition extract_links (page : soup) (base : string) (st : scraper)
    : list string :=
  set_order w (collect_links (hrefs w page) base (visited_urls st) []).

(** [extract_metadata] of utils.py, with the time of [format_timestamp]. *)
Definition extract_metadata (url title : string) (st : scraper)
    : gmap string mval * scraper :=
  (<["url" := MStr url]>
     (<["title" := MStr title]>
        (<["domain" := MStr "pmc.gov.in"]>
           (<["timestamp" := MStr (strftime w (ticks st))]> ∅))),
   tick st).

(** [chunk_text] runs with one unit of fuel more than the content is long;
    [None] is a run that used it all up. *)
Definition scrape_page (url : string) (st : scraper)
    : option (result (option page)) * scraper :=
  if decide (url ∈ visited_urls st) then (Some (Return None), st)
  else
    let st := visit url st in
    match get_page_content url st with
    | (Raise e, st) => (Some (Raise e), st)
    | (Return None, st) => (Some (Return None), st)
    | (Return (Some page), st) =>
        let title := extract_title page in
        let content := extract_text_content page in
        if String.eqb content "" || (len content <? 50)
        then (Some (Return None), st)
        else
          match chunk_text (S (String.length content)) content 1000 200 with
          | None => (None, st)
          | Some (Raise e) => (Some (Raise e), st)
          | Some (Return chunks) =>
              let '(metadata, st) := extract_metadata url title st in
              let page_data :=
                {| p_url := url; p_title := title; p_content := content;
                   p_chunks := chunks; p_metadata := metadata |} in
              let st :=
                slog INFO ("Scraped: " ++ title ++ " ("
                           ++ str_int (len content) ++ " characters, "
                           ++ str_int (Z.of_nat (length chunks))
                           ++ " chunks)") st in
              (Some (Return (Some page_data)), st)
          end
    end.

(** The loop of [scrape_website] over the links, with its [break]. *)
Fixpoint scrape_links (links : list string) (st : scraper)
    : option (result unit) * scraper :=
  match links with
  | [] => (Some (Return tt), st)
  | link :: rest =>
      if Z.of_nat (length (scraped_data st)) >=? max_pages
      then (Some (Return tt), st)
      else
        match scrape_page link st with
        | (Some (Return page_data), st) =>
            let st :=
              match page_data with
              | Some p => append_page p st
              | None => st
              end in
            let st :=
              slog INFO ("Progress: "
                         ++ str_int (Z.of_nat (length (scraped_data st)))
                         ++ "/" ++ str_int max_pages ++ " pages scraped") st in
            scrape_links rest st
        | (Some (Raise e), st) => (Some (Raise e), st)
        | (None, st) => (None, st)
        end
  end.

Definition scrape_website (st : scraper)
    : option (result (list page)) * scraper :=
  let st := slog INFO ("Starting to scrape " ++ base_url) st in
  match scrape_page base_url st with
  | (None, st) => (None, st)
  | (Some (Raise e), st) => (Some (Raise e), st)
  | (Some (Return main_page), st) =>
      let st :=
        match main_page with
        | Some p => append_page p st
        | None => st
        end in
      match get_page_content base_url st with
      | (Raise e, st) => (Some (Raise e), st)
      | (Return page, st) =>
          let '(r, st) :=
            match page with
            | Some page =>
                let links := extract_links page base_url st in
                let n := Z.of_nat (length links) in
                scrape_links
                  (take (Z.to_nat (slice_bound n max_pages)) links) st
            | None => (Some (Return tt), st)
            end in
          match r with
          | None => (None, st)
          | Some (Raise e) => (Some (Raise e), st)
          | Some (Return _) =>
              let st :=
                slog INFO ("Scraping completed. Total pages: "
                           ++ str_int (Z.of_nat (length (scraped_data st))))
                  st in
              (Some (Return (scraped_data st)), st)
          end
      end
  end.

End WithWeb.
End Scraper.

(** ** Quantities of the statements *)

Module Spec.
Import Utils.
Local Open Scope string_scope.
Local Open Scope Z_scope.

(** The least distance the cursor can advance before [overlap] is taken
    off: the sentence search may pull [end] back to two characters after
    the start of its window. *)
Definition min_advance (chunk_size : Z) : Z :=
  Z.min chunk_size (Z.max (chunk_size - 100) 0 + 2).

(** A chunk as the loop of [chunk_text] emits it. *)
Definition trimmed (chunk : string) : Prop :=
  chunk <> "" /\ strip chunk = chunk.

(** [sum(xs)] *)
Definition sum (xs : list Z) : Z := fold_right Z.add 0 xs.

(** The token estimate that [get_relevant_context] makes for one result:
    a quarter of the length of its content, rounded down. *)
Definition estimated_tokens (result : search_result) : Z :=
  len (content result) / 4.


(** *** Collaborators held in memory

    A collection that is a list of entries, a data file with one document
    of three chunks, an embedding model that maps every text to the same
    vector, and a completion service with one fixed answer. *)

Record entry : Type := {
  e_embedding : list float;
  e_document : string;
  e_metadata : gmap string mval;
  e_id : string
}.

Fixpoint zip_entries (embeddings : list (list float)) (docs : list string)
    (metas : list (gmap string mval)) (ids : list string) : list entry :=
  match embeddings, docs, metas, ids with
  | e :: embeddings', d :: docs', m :: metas', i :: ids' =>
      {| e_embedding := e; e_document := d; e_metadata := m; e_id := i |}
      :: zip_entries embeddings' docs' metas' ids'
  | _, _, _, _ => []
  end.

Definition memory_query (c : list entry) (n : Z) : query_result :=
  let hits := take (Z.to_nat n) c in
  {| documents := Some [map e_document hits];
     metadatas := Some [map e_metadata hits];
     distances := Some [map (fun _ => 0.25%float) hits] |}.

Definition sample_document : document :=
  {| doc_url := Some "https://www.pmc.gov.in/about";
     doc_title := Some "About";
     doc_chunks := Some ["The office assists the Prime Minister."; "  ";
                         "It coordinates the ministries."];
     doc_metadata := None |}.

Definition memory_services : services (list entry) :=
  {| encode := fun texts => Return (map (fun _ => [1%float; 0%float]) texts);
     coll_count := fun c => Return (Z.of_nat (length c));
     coll_add := fun c embeddings docs metas ids =>
       Return (c ++ zip_entries embeddings docs metas ids)%list;
     coll_query := fun c _ n => Return (memory_query c n);
     load_data := fun _ => Return [sample_document];
     complete := fun _ _ _ _ => Return [Some "It is the Prime Minister's office."];
     now := fun tick => "2024-01-01T00:00:0" ++ str_int (Z.of_nat tick) |}.

(** The same collaborators with another embedding model, another index
    query or another completion service. *)
Definition with_encode {coll} (svc : services coll)
    (f : list string -> result (list (list float))) : services coll :=
  {| encode := f; coll_count := coll_count svc; coll_add := coll_add svc;
     coll_query := coll_query svc; load_data := load_data svc;
     complete := complete svc; now := now svc |}.

Definition with_query {coll} (svc : services coll)
    (f : coll -> list (list float) -> Z -> result query_result)
    : services coll :=
  {| encode := encode svc; coll_count := coll_count svc;
     coll_add := coll_add svc; coll_query := f; load_data := load_data svc;
     complete := complete svc; now := now svc |}.

Definition with_complete {coll} (svc : services coll)
    (f : string -> list message -> float -> Z -> result (list (option string)))
    : services coll :=
  {| encode := encode svc; coll_count := coll_count svc;
     coll_add := coll_add svc; coll_query := coll_query svc;
     load_data := load_data svc; complete := f; now := now svc |}.

Definition sample_config : config :=
  {| model_name := "gpt-3.5-turbo"; temperature := 0.5%float;
     max_tokens := 1000; embedding_model_name := "all-MiniLM-L6-v2" |}.

(** A chatbot just constructed: its history is the empty list at address 0. *)
Definition new_chatbot : Chatbot.PMCChatbot :=
  {| Chatbot.system_prompt := "You are an AI assistant for the PMO website.";
     Chatbot.conversation_history := 0%nat |}.

Definition new_state : state (list entry) :=
  {| heap := [OList []]; collection := []; log := []; clock := 0%nat |}.

(** The state [s] with one more line in the log. *)
Definition logged {coll} (s : state coll) (lv : level) (msg : string)
    : state coll :=
  Build_state (heap s) (collection s) (log s ++ [(lv, msg)])%list (clock s).

(** What a failed search logs. *)
Definition search_error (e : exn) : string :=
  "Error searching vector store: " ++ str_exn e.

Definition two_entries : list entry :=
  [ {| e_embedding := [1%float; 0%float]; e_document := "first";
       e_metadata := ∅; e_id := "doc_0_chunk_0" |};
    {| e_embedding := [1%float; 0%float]; e_document := "second";
       e_metadata := ∅; e_id := "doc_0_chunk_1" |} ].

Definition one_entry : list entry :=
  [ {| e_embedding := [1%float; 0%float]; e_document := "abcd";
       e_metadata := ∅; e_id := "doc_0_chunk_0" |} ].

(** *** The conversation history, read through the store *)

(** The items of the history list; [None] when the address holds no list. *)
Definition history_items {coll} (self : Chatbot.PMCChatbot) (s : state coll)
    : option (list nat) :=
  match heap s !! Chatbot.conversation_history self with
  | Some (OList items) => Some items
  | _ => None
  end.

(** The turn dicts behind a list of addresses; [None] when one of them
    holds no dict. *)
Fixpoint read_turns (h : list obj) (items : list nat) : option (list turn) :=
  match items with
  | [] => Some []
  | d :: rest =>
      match h !! d, read_turns h rest with
      | Some (ODict t), Some ts => Some (t :: ts)
      | _, _ => None
      end
  end.

(** The stored history, turn by turn. *)
Definition history {coll} (self : Chatbot.PMCChatbot) (s : state coll)
    : option (list turn) :=
  match history_items self s with
  | Some items => read_turns (heap s) items
  | None => None
  end.

(** The history list holds [items], which are the addresses of [ts]. *)
Definition holds {coll} (self : Chatbot.PMCChatbot) (s : state coll)
    (items : list nat) (ts : list turn) : Prop :=
  history_items self s = Some items /\ read_turns (heap s) items = Some ts.

(** The messages sent for a sequence of turns: those of the user and of the
    assistant, in order. *)
Definition forwarded (ts : list turn) : list message :=
  flat_map (fun t =>
    if String.eqb (role t) "user"
    then [{| m_role := "user"; m_content := t_content t |}]
    else if String.eqb (role t) "assistant"
    then [{| m_role := "assistant"; m_content := t_content t |}]
    else []) ts.

(** The system messages that come before the turns. *)
Definition head_messages (self : Chatbot.PMCChatbot) (context : string)
    : list message :=
  ({| m_role := "system"; m_content := Chatbot.system_prompt self |}
   :: if String.eqb context "" then []
      else [{| m_role := "system";
               m_content := Chatbot.context_message context |}])%list.

Definition user_turn (content time : string) : turn :=
  {| role := "user"; t_content := content; timestamp := time |}.

Definition assistant_turn (content time : string) : turn :=
  {| role := "assistant"; t_content := content; timestamp := time |}.

(** Collaborators whose completion service is down, whose completion
    service answers with a null content, and whose embedding model is
    down. *)
Definition completion_down : services (list entry) :=
  with_complete memory_services
    (fun _ _ _ _ => Raise (ExternalError "Connection error.")).

Definition completion_null : services (list entry) :=
  with_complete memory_services (fun _ _ _ _ => Return [None]).

Definition embedding_down : services (list entry) :=
  with_encode memory_services
    (fun _ => Raise (ExternalError "model not loaded")).

(** A history of twelve turns: the list at address 0 and the dicts of the
    turns at addresses 1 to 12. *)
Definition twelve_turns : list turn :=
  map (fun n => if Nat.even n then user_turn "question" (str_int (Z.of_nat n))
                else assistant_turn "answer" (str_int (Z.of_nat n)))
      (seq 0 12).

Definition long_state : state (list entry) :=
  {| heap := (OList (seq 1 12) :: map ODict twelve_turns)%list;
     collection := []; log := []; clock := 12%nat |}.

(** The chunks of a document, blank ones included. *)
Definition chunks_of (doc : document) : list string :=
  default [] (doc_chunks doc).

(** [bool(chunk.strip())] *)
Definition nonblank (chunk : string) : bool :=
  negb (String.eqb (strip chunk) "").

(** The non-blank chunks of a list of documents, in order. *)
Definition nonblank_chunks (docs : list document) : list string :=
  List.filter nonblank (flat_map chunks_of docs).

(** The three parallel lists that [add_documents] builds. *)
Definition all_texts (docs : list document) : list string :=
  map (fun e => fst (fst e)) (VectorStore.all_entries 0 docs).

Definition all_metadatas (docs : list document) : list (gmap string mval) :=
  map (fun e => snd (fst e)) (VectorStore.all_entries 0 docs).

Definition all_ids (docs : list document) : list string :=
  map snd (VectorStore.all_entries 0 docs).

(** An index answer with two documents, two metadata dicts and one
    distance. *)
Definition uneven_answer : query_result :=
  {| documents := Some [["first"; "second"]];
     metadatas := Some [[∅; ∅]];
     distances := Some [[0.25%float]] |}.

(** An index answer with a document and no metadata. *)
Definition answer_without_metadata : query_result :=
  {| documents := Some [["first"]];
     metadatas := None;
     distances := Some [[0.25%float]] |}.

(** A document with a title and a metadata dict of its own. *)
Definition titled_document : document :=
  {| doc_url := Some "https://www.pmc.gov.in/about";
     doc_title := Some "About";
     doc_chunks := Some ["  "; "The office assists the Prime Minister."];
     doc_metadata := Some (<["title" := MStr "About the PMO"]>
                           (<["domain" := MStr "pmc.gov.in"]> ∅)) |}.

(** A document whose chunks are all blank, and one without chunks. *)
Definition blank_documents : list document :=
  [ {| doc_url := Some "https://www.pmc.gov.in/a"; doc_title := None;
       doc_chunks := Some ["   "; ""]; doc_metadata := None |};
    {| doc_url := None; doc_title := None; doc_chunks := None;
       doc_metadata := None |} ].

(** The characters of a string. *)
Definition chars (s : string) : list ascii := list_ascii_of_string s.

(** The state [s] with another collection. *)
Definition with_collection {coll} (s : state coll) (c : coll) : state coll :=
  Build_state (heap s) c (log s) (clock s).

(** Collaborators whose collection refuses every add. *)
Definition add_refused : services (list entry) :=
  {| encode := encode memory_services;
     coll_count := coll_count memory_services;
     coll_add := fun _ _ _ _ _ => Raise (ExternalError "disk full");
     coll_query := coll_query memory_services;
     load_data := load_data memory_services;
     complete := complete memory_services;
     now := now memory_services |}.

(** Collaborators whose collection cannot be counted. *)
Definition count_down : services (list entry) :=
  {| encode := encode memory_services;
     coll_count := fun _ => Raise (ExternalError "database is locked");
     coll_add := coll_add memory_services;
     coll_query := coll_query memory_services;
     load_data := load_data memory_services;
     complete := complete memory_services;
     now := now memory_services |}.

(** Collaborators whose data file is missing: [load_data] returns []. *)
Definition no_data_file : services (list entry) :=
  {| encode := encode memory_services;
     coll_count := coll_count memory_services;
     coll_add := coll_add memory_services;
     coll_query := coll_query memory_services;
     load_data := fun _ => Return [];
     complete := complete memory_services;
     now := now memory_services |}.

(** What [get_response] answers and the history it leaves, given what the
    completion service did with the prompt: [context] is the retrieved
    context, [u] the user turn, [t1] and [t2] the next two clock
    readings. *)
Definition answer_of (cfg : config) (context : string)
    (outcome : result (list (option string))) (t1 t2 : string) : response :=
  match outcome with
  | Return (c :: _) =>
      ResponseData c (negb (String.eqb context "")) (len context) t2
        (model_name cfg)
  | Return [] => ErrorResponse Chatbot.apology (str_exn IndexError) t1
  | Raise e => ErrorResponse Chatbot.apology (str_exn e) t1
  end.

Definition turns_after (ts : list turn) (u : turn)
    (outcome : result (list (option string))) (t1 : string) : list turn :=
  match outcome with
  | Return (c :: _) =>
      (ts ++ [u; assistant_turn (Chatbot.or_empty c) t1])%list
  | _ => (ts ++ [u])%list
  end.

(** The prompt of a request: the system messages, the user and assistant
    turns among the last nine turns of the history, and the message of
    the user. *)
Definition prompt (self : Chatbot.PMCChatbot) (context : string)
    (ts : list turn) (user_message : string) : list message :=
  (head_messages self context
   ++ forwarded (drop (length ts - 9) ts)
   ++ [{| m_role := "user"; m_content := user_message |}])%list.

(** The turns behind the list at address [l]. *)
Definition turns_at {coll} (l : nat) (s : state coll) : option (list turn) :=
  match heap s !! l with
  | Some (OList items) => read_turns (heap s) items
  | _ => None
  end.

(** Collaborators whose completion service answers with no choice. *)
Definition completion_no_choice : services (list entry) :=
  with_complete memory_services (fun _ _ _ _ => Return []).

(** Collaborators whose completion service answers only the prompt made of
    the system message and one question. *)
Definition completion_picky : services (list entry) :=
  with_complete memory_services
    (fun _ messages _ _ =>
       match messages with
       | [_; m] =>
           if String.eqb (m_content m) "What is the PMO?"
           then Return [Some "An office."]
           else Raise (ExternalError "unexpected prompt")
       | _ => Raise (ExternalError "unexpected prompt")
       end).

(** The context of a request made in state [s]: what
    [get_relevant_context] returns on the collection of [s] when retrieval
    is asked for, the empty string otherwise. [get_response] retrieves it
    after it has recorded the user turn, which changes the object store
    and the clock only; the collection, on which alone the context depends,
    is still the one of [s]. *)
Definition retrieved_context {coll} (svc : services coll)
    (user_message : string) (use_context : bool) (s : state coll) : string :=
  if use_context
  then match fst (VectorStore.get_relevant_context svc user_message 2000 s)
       with
       | Return context => context
       | Raise _ => ""
       end
  else "".

(** Collaborators whose completion service gives [outcome] for the prompt
    made of the system message and the question "What is the PMO?", and a
    plain answer for every other prompt. *)
Definition completion_on_question (outcome : result (list (option string)))
    : services (list entry) :=
  with_complete memory_services
    (fun _ messages _ _ =>
       match messages with
       | [_; m] =>
           if String.eqb (m_content m) "What is the PMO?"
           then outcome
           else Return [Some "Please ask about the PMO."]
       | _ => Return [Some "Please ask about the PMO."]
       end).

(** *** The scraper *)


(** A page as [scrape_page] records it: at least 50 characters of content,
    and the chunks that [chunk_text] makes of the content with the sizes
    1000 and 200. *)
Definition well_scraped (p : Scraper.page) : Prop :=
  50 <= len (Scraper.p_content p)
  /\ chunk_text (S (String.length (Scraper.p_content p)))
       (Scraper.p_content p) 1000 200
     = Some (Return (Scraper.p_chunks p)).

(** The link that [extract_links] makes of an anchor [href]: an anchor that
    starts with a slash is joined to the base twice, one that starts with
    http and contains the base url once. *)
Definition link_from {soup} (w : Scraper.web soup)
    (base_url base link href : string) : Prop :=
  String.prefix "/" href = true
  /\ link = Scraper.urljoin w base (Scraper.urljoin w base href)
  \/ String.prefix "/" href = false
     /\ String.prefix "http" href = true
     /\ Scraper.contains base_url href = true
     /\ link = Scraper.urljoin w base href.

(** A scraper just constructed. *)
Definition new_scraper : Scraper.scraper :=
  {| Scraper.visited_urls := ∅; Scraper.scraped_data := [];
     Scraper.ticks := 0%nat; Scraper.s_log := [] |}.


(** A site where the parsed page is its url: the request for the news page
    fails, every other page has the same text of 64 characters and the same
    anchors, [urljoin] keeps an absolute url and appends a path to the
    base, and [time.sleep] refuses a delay that is not at least zero. *)
Definition sample_web : Scraper.web string :=
  {| Scraper.get := fun _ url =>
       if String.eqb url "https://www.pmc.gov.in/news"
       then Scraper.RequestException "404 Client Error: Not Found"
       else Scraper.Fetched url;
     Scraper.sleep := fun secs =>
       if PrimFloat.leb 0 secs then Return tt
       else Raise (ExternalError "sleep length must be non-negative");
     Scraper.select_one := fun page selector =>
       if String.eqb selector "h1" then Some (" Page " ++ page ++ " ")
       else None;
     Scraper.select := fun _ _ => [];
     Scraper.get_text := fun _ =>
       "The Prime Minister's Office assists the Prime Minister of India.";
     Scraper.hrefs := fun _ =>
       ["/about"; "mailto:pmo@gov.in"; "https://example.org/x"; "/about";
        "/contact"; "/news"];
     Scraper.urljoin := fun base href =>
       if String.prefix "http" href then href else base ++ href;
     Scraper.set_order := fun links => List.nodup string_dec links;
     Scraper.strftime := fun _ => "2024-01-01 00:00:00" |}.

(** No underscore in a string. *)
Definition plain (s : string) : Prop := ~ In "_"%char (chars s).

(** A character that [clean_text] may leave in its result: a word
    character, the space, or one of the marks it keeps. *)
Definition clean_char (c : ascii) : Prop :=
  is_word c = true \/ c = " "%char
  \/ In c (list_ascii_of_string ".,!?:;-()").

(** One result with a four-character content and no title. *)
Definition short_result : search_result :=
  {| content := "abcd"; metadata := ∅; similarity_score := 0.75%float;
     rank := 1 |}.

End Spec.

(** ** Facts about [chunk_text] *)

Module UtilsFacts.
Import Utils Spec.
Local Open Scope Z_scope.

Lemma get_in_range (s : string) (n : nat) :
  (n < String.length s)%nat -> exists c, String.get n s = Some c.
Proof.
  revert n; induction s as [|a s IH]; intros n Hn; simpl in *; [lia|].
  destruct n as [|n]; [eauto|]. apply IH. lia.
Qed.

Lemma index_in_range (s : string) (i : Z) :
  0 <= i < len s -> exists c, index s i = Some c.
Proof.
  intros [H0 H1]. unfold index.
  destruct (Z.ltb_spec i 0) as [?|_]; [lia|].
  destruct (Z.ltb_spec i 0) as [?|_]; [lia|].
  destruct (Z.leb_spec (len s) i) as [?|_]; [lia|]. simpl.
  apply get_in_range. unfold len in H1. lia.
Qed.

(** Inside the text the backward scan raises nothing, and a boundary it
    finds lies at most [n - 2] characters before the tentative one. *)
Lemma find_boundary_in_range (text : string) (n : nat) (i : Z) :
  (n <> 0%nat -> Z.of_nat n <= i) -> i < len text ->
  exists b, find_boundary text i n = Return b /\
    match b with
    | Some e => i - Z.of_nat n + 2 <= e <= i + 1
    | None => True
    end.
Proof.
  revert i; induction n as [|n IH]; intros i Hn Hi; simpl find_boundary.
  - exists None; auto.
  - destruct (index_in_range text i) as [c ->]; [lia|].
    destruct (is_sentence_end c).
    + exists (Some (i + 1)); split; [reflexivity|lia].
    + destruct (IH (i - 1)) as [b [-> Hb]]; [lia|lia|].
      exists b; split; [reflexivity|]. destruct b; [lia|exact I].
Qed.

Lemma chunk_body_progress (text : string) (chunk_size overlap start : Z)
    (chunks : list string) :
  overlap < min_advance chunk_size -> 0 <= start ->
  (exists chunks', chunk_body text chunk_size overlap start chunks
                   = Return (Break chunks'))
  \/ (exists start' chunks', chunk_body text chunk_size overlap start chunks
                   = Return (Next start' chunks')
        /\ start < start' < len text).
Proof.
  unfold min_advance; intros Hov Hs. unfold chunk_body; cbv zeta.
  set (lo := Z.max (start + chunk_size - 100) start).
  set (end_ := start + chunk_size).
  assert (Hlo : start <= lo /\ start + chunk_size - 100 <= lo) by lia.
  assert (Hend : end_ = start + chunk_size) by reflexivity.
  clearbody lo end_.
  assert (Hfound : exists b,
    (if end_ <? len text then find_boundary text end_ (Z.to_nat (end_ - lo))
     else Return None) = Return b /\
    match b with Some e => lo + 2 <= e | None => True end).
  { destruct (Z.ltb_spec end_ (len text)) as [Hlt|Hge].
    - destruct (find_boundary_in_range text (Z.to_nat (end_ - lo)) end_)
        as [b [Hb Hr]]; [lia|lia|].
      exists b; split; [exact Hb|]. destruct b; [lia|exact I].
    - exists None; auto. }
  destruct Hfound as [b [-> Hb]].
  set (e := match b with Some e => e | None => end_ end).
  assert (He : start + overlap < e) by (subst e; destruct b; lia).
  destruct (Z.leb_spec (len text) (e - overlap)).
  - left; eauto.
  - right; do 2 eexists; split; [reflexivity|lia].
Qed.

Lemma chunk_loop_terminates (text : string) (chunk_size overlap : Z) :
  overlap < min_advance chunk_size ->
  forall (fuel : nat) (start : Z) (chunks : list string),
    0 <= start -> Z.max 0 (len text - start) < Z.of_nat fuel ->
    exists r, chunk_loop fuel text chunk_size overlap start chunks
              = Some (Return r).
Proof.
  intros Hov; induction fuel as [|fuel IH]; intros start chunks Hs Hf.
  - lia.
  - simpl. destruct (Z.ltb_spec start (len text)) as [Hlt|Hge]; [|eauto].
    destruct (chunk_body_progress text chunk_size overlap start chunks Hov Hs)
      as [[c ->]|[s' [c [-> Hp]]]]; [eauto|].
    apply IH; lia.
Qed.

Lemma chunk_loop_fuel_mono (text : string) (chunk_size overlap : Z) :
  forall (fuel fuel' : nat) (start : Z) (chunks r : list string),
    chunk_loop fuel text chunk_size overlap start chunks = Some (Return r) ->
    (fuel <= fuel')%nat ->
    chunk_loop fuel' text chunk_size overlap start chunks = Some (Return r).
Proof.
  induction fuel as [|fuel IH]; intros fuel' start chunks r H Hle;
    [discriminate|].
  destruct fuel' as [|fuel']; [lia|]. simpl in *.
  destruct (start <? len text); [|exact H].
  destruct (chunk_body text chunk_size overlap start chunks) as [[s c|c]|e];
    try exact H.
  apply IH; [exact H|lia].
Qed.

(** The degenerate run: the cursor comes back to 0 and the loop never ends. *)
Lemma chunk_loop_stuck (fuel : nat) (chunks : list string) :
  chunk_loop fuel "abcde" 2 2 0 chunks = None.
Proof.
  revert chunks; induction fuel as [|fuel IH]; intros chunks;
    [reflexivity|].
  change (chunk_loop (S fuel) "abcde" 2 2 0 chunks)
    with (chunk_loop fuel "abcde" 2 2 0 (chunks ++ ["ab"])).
  apply IH.
Qed.

(** A run with [overlap < chunk_size] that is stuck as well: the sentence
    end at index 2 pulls [end] back to 3, and 3 - 3 is the old cursor. *)
Lemma chunk_loop_stuck_at_sentence (fuel : nat) (chunks : list string) :
  chunk_loop fuel "ab.defghij" 4 3 0 chunks = None.
Proof.
  revert chunks; induction fuel as [|fuel IH]; intros chunks;
    [reflexivity|].
  change (chunk_loop (S fuel) "ab.defghij" 4 3 0 chunks)
    with (chunk_loop fuel "ab.defghij" 4 3 0 (chunks ++ ["ab."])).
  apply IH.
Qed.

Lemma lstrip_idem (s : string) : lstrip (lstrip s) = lstrip s.
Proof.
  induction s as [|c s IH]; simpl; [reflexivity|].
  destruct (is_space c) eqn:E; [exact IH|]. simpl. now rewrite E.
Qed.

Lemma rstrip_idem (s : string) : rstrip (rstrip s) = rstrip s.
Proof.
  induction s as [|c s IH]; simpl; [reflexivity|].
  destruct (rstrip s) as [|c' r] eqn:E.
  - destruct (is_space c) eqn:Ec; simpl; [reflexivity|now rewrite Ec].
  - simpl in *. now rewrite IH.
Qed.

Lemma lstrip_keeps_rstrip (s : string) :
  rstrip s = s -> rstrip (lstrip s) = lstrip s.
Proof.
  induction s as [|c s IH]; intros H; [reflexivity|].
  simpl lstrip. destruct (is_space c) eqn:Ec; [|exact H].
  apply IH. simpl in H. destruct (rstrip s) as [|c' r] eqn:E.
  - rewrite Ec in H. discriminate.
  - now injection H.
Qed.

Lemma strip_idem (s : string) : strip (strip s) = strip s.
Proof.
  unfold strip.
  rewrite (lstrip_keeps_rstrip (rstrip s) (rstrip_idem s)).
  apply lstrip_idem.
Qed.

(** Every chunk the loop appends is non-empty and trimmed. *)
Lemma chunk_body_trimmed (text : string) (chunk_size overlap start : Z)
    (chunks : list string) (r : step) :
  Forall trimmed chunks ->
  chunk_body text chunk_size overlap start chunks = Return r ->
  Forall trimmed match r with Next _ c => c | Break c => c end.
Proof.
  intros Hc. unfold chunk_body.
  destruct (if _ <? _ then _ else _) as [b|]; try discriminate.
  set (chunk := strip _).
  assert (Hnew : Forall trimmed
            (if String.eqb chunk "" then chunks else chunks ++ [chunk])).
  { destruct (String.eqb_spec chunk "") as [|Hne]; [exact Hc|].
    apply Forall_app; split; [exact Hc|].
    constructor; [|constructor]. split; [exact Hne|apply strip_idem]. }
  destruct (_ <=? _); intros [= <-]; exact Hnew.
Qed.

Lemma chunk_loop_trimmed (text : string) (chunk_size overlap : Z) :
  forall (fuel : nat) (start : Z) (chunks r : list string),
    Forall trimmed chunks ->
    chunk_loop fuel text chunk_size overlap start chunks = Some (Return r) ->
    Forall trimmed r.
Proof.
  induction fuel as [|fuel IH]; intros start chunks r Hc H; [discriminate|].
  simpl in H. destruct (start <? len text); [|now injection H as <-].
  destruct (chunk_body text chunk_size overlap start chunks)
    as [[s' c'|c']|] eqn:E; try discriminate;
    pose proof (chunk_body_trimmed _ _ _ _ _ _ Hc E) as Hc'; simpl in Hc'.
  - exact (IH _ _ _ Hc' H).
  - now injection H as <-.
Qed.

(** A text longer than [chunk_size] goes through the loop, and every chunk
    that comes out of it is non-empty and trimmed. *)
Theorem chunk_text_long_trimmed (fuel : nat) (text : string)
    (chunk_size overlap : Z) (chunks : list string) :
  len text > chunk_size ->
  chunk_text fuel text chunk_size overlap = Some (Return chunks) ->
  Forall trimmed chunks.
Proof.
  unfold chunk_text. intros Hlen.
  destruct (Z.leb_spec (len text) chunk_size) as [?|_]; [lia|].
  apply chunk_loop_trimmed. constructor.
Qed.

Lemma chunk_text_long_trimmed_witness :
  Forall trimmed ["One. Two!"; "! Three?"; "? Four."].
Proof.
  exact (chunk_text_long_trimmed 50 "One. Two! Three? Four." 10 1
           ["One. Two!"; "! Three?"; "? Four."] eq_refl eq_refl).
Defined.

(** C2 as amended: when [overlap] is below the least advance of a pass
    (for the defaults, 200 < 902), every pass of the loop that goes on
    leaves the cursor strictly further, and [chunk_text] returns its
    chunks with any fuel above the length of the text. *)
Theorem chunk_text_terminates (text : string) (chunk_size overlap : Z) :
  overlap < min_advance chunk_size ->
  (forall (start : Z) (chunks : list string), 0 <= start ->
     (exists chunks', chunk_body text chunk_size overlap start chunks
                      = Return (Break chunks'))
     \/ (exists start' chunks', chunk_body text chunk_size overlap start chunks
                      = Return (Next start' chunks') /\ start < start'))
  /\ exists chunks, forall fuel : nat,
       (String.length text < fuel)%nat ->
       chunk_text fuel text chunk_size overlap = Some (Return chunks).
Proof.
  intros Hov; split.
  - intros start chunks Hs.
    destruct (chunk_body_progress text chunk_size overlap start chunks Hov Hs)
      as [H|[s' [c' [H Hp]]]]; [left; exact H|right].
    exists s', c'; split; [exact H|lia].
  - unfold chunk_text. destruct (len text <=? chunk_size); [eauto|].
    destruct (chunk_loop_terminates text chunk_size overlap Hov
                (S (String.length text)) 0 []) as [r Hr];
      [lia|unfold len; lia|].
    exists r; intros fuel Hf.
    apply (chunk_loop_fuel_mono _ _ _ _ _ _ _ _ Hr). lia.
Qed.

Lemma chunk_text_terminates_witness :
  1 < min_advance 10
  /\ 10 < len "One. Two! Three? Four."
  /\ (exists start' chunks',
        chunk_body "One. Two! Three? Four." 10 1 0 []
        = Return (Next start' chunks')
        /\ 0 < start' /\ start' = 8 /\ chunks' = ["One. Two!"])
  /\ (exists chunks,
        (forall fuel : nat,
           (22 < fuel)%nat ->
           chunk_text fuel "One. Two! Three? Four." 10 1
           = Some (Return chunks))
        /\ chunks = ["One. Two!"; "! Three?"; "? Four."]).
Proof.
  destruct (chunk_text_terminates "One. Two! Three? Four." 10 1
              ltac:(reflexivity)) as [Hpass [chunks Hret]].
  split; [reflexivity|]. split; [reflexivity|]. split.
  - destruct (Hpass 0 [] ltac:(discriminate))
      as [[chunks' Hb]|[start' [chunks' [Hn Hlt]]]]; [discriminate Hb|].
    exists start', chunks'. split; [exact Hn|]. split; [exact Hlt|].
    injection Hn as <- <-. split; reflexivity.
  - exists chunks. split; [exact Hret|].
    pose proof (Hret 23%nat ltac:(simpl; lia)) as H23.
    injection H23 as <-. reflexivity.
Defined.

(** C2 as stated fails: with [chunk_size = overlap = 2] the first pass over
    "abcde" puts the cursor back on 0, and no amount of fuel ends the loop;
    nothing is raised either. The same happens with an overlap of 3 below a
    chunk size of 4, when a sentence ends early in the chunk. *)
Lemma chunk_text_degenerate_diverges :
  chunk_body "abcde" 2 2 0 [] = Return (Next 0 ["ab"])
  /\ (forall fuel : nat, chunk_text fuel "abcde" 2 2 = None)
  /\ chunk_body "ab.defghij" 4 3 0 [] = Return (Next 0 ["ab."])
  /\ (forall fuel : nat, chunk_text fuel "ab.defghij" 4 3 = None).
Proof.
  split; [reflexivity|]. split; [intros fuel; apply chunk_loop_stuck|].
  split; [reflexivity|]. intros fuel. apply chunk_loop_stuck_at_sentence.
Qed.

(** C5 at the failing input: a text no longer than [chunk_size] comes back
    as it is, with its blanks, although [strip] would shorten it; an empty
    or blank text comes back as a chunk too. *)
Theorem chunk_text_short_untrimmed :
  (forall fuel : nat,
     chunk_text fuel "  a " 1000 200 = Some (Return ["  a "]))
  /\ strip "  a " = "a"
  /\ (forall fuel : nat, chunk_text fuel "" 1000 200 = Some (Return [""]))
  /\ (forall fuel : nat,
        chunk_text fuel "   " 1000 200 = Some (Return ["   "])).
Proof. repeat split. Qed.

End UtilsFacts.

(** ** Facts about the vector store *)

Module VectorStoreFacts.
Import Utils VectorStore Spec.
Local Open Scope Z_scope.

Lemma format_loop_length (docs : list string) :
  forall (i : Z) (metas : list (gmap string mval)) (dists : list float),
    length metas = length docs -> length dists = length docs ->
    length (format_loop i docs metas dists) = length docs.
Proof.
  induction docs as [|doc docs IH]; intros i metas dists Hm Hd;
    [reflexivity|].
  destruct metas as [|m metas]; [discriminate|].
  destruct dists as [|d dists]; [discriminate|].
  simpl in *. f_equal. apply IH; lia.
Qed.

Lemma format_loop_rank (docs : list string) :
  forall (i : Z) (metas : list (gmap string mval)) (dists : list float),
    length metas = length docs -> length dists = length docs ->
    map rank (format_loop i docs metas dists)
    = map (fun n => i + Z.of_nat n + 1) (seq 0 (length docs)).
Proof.
  induction docs as [|doc docs IH]; intros i metas dists Hm Hd;
    [reflexivity|].
  destruct metas as [|m metas]; [discriminate|].
  destruct dists as [|d dists]; [discriminate|].
  simpl in *. f_equal; [lia|].
  rewrite IH by lia. rewrite <- seq_shift, map_map.
  apply map_ext; intros n; lia.
Qed.

Lemma format_loop_score (docs : list string) :
  forall (i : Z) (metas : list (gmap string mval)) (dists : list float),
    length metas = length docs -> length dists = length docs ->
    map similarity_score (format_loop i docs metas dists)
    = map (fun distance => (1 - distance)%float) dists
    /\ map content (format_loop i docs metas dists) = docs
    /\ map metadata (format_loop i docs metas dists) = metas.
Proof.
  induction docs as [|doc docs IH]; intros i metas dists Hm Hd.
  - destruct metas; [|discriminate]. destruct dists; [|discriminate].
    repeat split.
  - destruct metas as [|m metas]; [discriminate|].
    destruct dists as [|d dists]; [discriminate|].
    simpl in *.
    destruct (IH (i + 1) metas dists) as [H1 [H2 H3]]; [lia|lia|].
    rewrite H1, H2, H3. repeat split.
Qed.

(** C8: when the index query succeeds with n documents, n metadata dicts
    and n distances, [search] returns n results whose ranks are 1, 2, ..., n
    in this order and whose similarity scores are 1 minus the distances, in
    the order of the index's answer. *)
Theorem search_ranks_and_scores {coll} (svc : services coll) (query : string)
    (n_results : Z) (s : state coll) (embedding : list (list float))
    (answer : query_result) (docs : list string)
    (metas : list (gmap string mval)) (dists : list float)
    (more_docs : list (list string))
    (more_metas : list (list (gmap string mval)))
    (more_dists : list (list float)) :
  encode svc [query] = Return embedding ->
  coll_query svc (collection s) embedding n_results = Return answer ->
  documents answer = Some (docs :: more_docs) ->
  metadatas answer = Some (metas :: more_metas) ->
  distances answer = Some (dists :: more_dists) ->
  length metas = length docs -> length dists = length docs ->
  exists results s',
    search svc query n_results s = (Return results, s')
    /\ length results = length docs
    /\ map rank results = map (fun n => Z.of_nat n + 1) (seq 0 (length docs))
    /\ map similarity_score results
       = map (fun distance => (1 - distance)%float) dists
    /\ map content results = docs.
Proof.
  intros Henc Hq Hdocs Hmetas Hdists Hm Hd.
  assert (Hfmt : format_results answer = Return (format_loop 0 docs metas dists)).
  { unfold format_results. rewrite Hdocs, Hmetas, Hdists. simpl.
    destruct docs as [|doc docs]; [|reflexivity].
    destruct metas; [|discriminate]. destruct dists; [|discriminate].
    reflexivity. }
  exists (format_loop 0 docs metas dists). eexists. split.
  - unfold search, try_except, bind, lift, get_collection, logger, ret.
    rewrite Henc. simpl. rewrite Hq, Hfmt. reflexivity.
  - split; [now apply format_loop_length|].
    split; [now rewrite format_loop_rank|].
    destruct (format_loop_score docs 0 metas dists Hm Hd) as [H1 [H2 _]].
    now split.
Qed.

Lemma search_ranks_and_scores_witness :
  exists results s',
    search memory_services "office" 5
      (Build_state [OList []] two_entries [] 0%nat) = (Return results, s')
    /\ length results = 2%nat
    /\ map rank results = [1; 2]
    /\ map similarity_score results = [0.75%float; 0.75%float]
    /\ map content results = ["first"; "second"].
Proof.
  exact (search_ranks_and_scores memory_services "office" 5
           (Build_state [OList []] two_entries [] 0%nat)
           [[1%float; 0%float]] (memory_query two_entries 5)
           ["first"; "second"] [∅; ∅] [0.25%float; 0.25%float] [] [] []
           eq_refl eq_refl eq_refl eq_refl eq_refl eq_refl eq_refl).
Defined.

Lemma search_failure {coll} (svc : services coll) (query : string)
    (n_results : Z) (s : state coll) (e : exn) :
  encode svc [query] = Raise e
  \/ (exists embedding, encode svc [query] = Return embedding
        /\ coll_query svc (collection s) embedding n_results = Raise e) ->
  search svc query n_results s = (Return [], logged s ERROR (search_error e)).
Proof.
  intros [Henc|[embedding [Henc Hq]]];
    unfold search, try_except, bind, lift, get_collection, logger, ret;
    rewrite Henc; simpl; [reflexivity|]. rewrite Hq. reflexivity.
Qed.

(** [search] never raises. *)
Lemma search_returns {coll} (svc : services coll) (query : string)
    (n_results : Z) (s : state coll) :
  exists results lg,
    search svc query n_results s
    = (Return results, Build_state (heap s) (collection s) lg (clock s)).
Proof.
  unfold search, try_except, bind, lift, get_collection, logger, ret.
  destruct (encode svc [query]) as [embedding|e]; simpl; [|eauto].
  destruct (coll_query svc (collection s) embedding n_results) as [answer|e];
    simpl; [|eauto].
  destruct (format_results answer) as [formatted|e]; simpl; eauto.
Qed.

(** C4: when the collection already holds entries, [load_and_index_data]
    reports success and changes nothing but the log, which gains the line
    that says indexing was skipped; the count is the same afterwards. *)
Theorem load_and_index_data_idempotent {coll} (svc : services coll)
    (data_file : string) (s : state coll) (count : Z) :
  coll_count svc (collection s) = Return count -> count > 0 ->
  load_and_index_data svc data_file s
  = (Return true,
     logged s INFO "Vector store already contains data. Skipping indexing.")
  /\ coll_count svc
       (collection (snd (load_and_index_data svc data_file s)))
     = Return count.
Proof.
  intros Hc Hpos.
  assert (H : load_and_index_data svc data_file s
    = (Return true,
       logged s INFO "Vector store already contains data. Skipping indexing.")).
  { unfold load_and_index_data, try_except, bind, lift, get_collection,
      logger, ret. simpl. rewrite Hc.
    destruct (Z.gtb_spec count 0) as [_|?]; [reflexivity|lia]. }
  split; [exact H|]. rewrite H. exact Hc.
Qed.

(** The first run on the empty collection indexes the two non-blank chunks
    of the sample document. *)
Lemma first_run_indexes :
  fst (load_and_index_data memory_services "data/pmc_scraped_data.json"
         new_state) = Return true
  /\ map e_id (collection (snd (load_and_index_data memory_services
                  "data/pmc_scraped_data.json" new_state)))
     = ["doc_0_chunk_0"; "doc_0_chunk_2"].
Proof. split; vm_compute; reflexivity. Qed.

Lemma load_and_index_data_idempotent_witness :
  let s1 := snd (load_and_index_data memory_services
                   "data/pmc_scraped_data.json" new_state) in
  load_and_index_data memory_services "data/pmc_scraped_data.json" s1
  = (Return true,
     logged s1 INFO "Vector store already contains data. Skipping indexing.")
  /\ coll_count memory_services
       (collection (snd (load_and_index_data memory_services
                           "data/pmc_scraped_data.json" s1)))
     = Return 2.
Proof.
  exact (load_and_index_data_idempotent memory_services
           "data/pmc_scraped_data.json"
           (snd (load_and_index_data memory_services
                   "data/pmc_scraped_data.json" new_state))
           2 eq_refl eq_refl).
Defined.




End VectorStoreFacts.

(** ** Facts about the chatbot *)

Module ChatbotFacts.
Import Utils VectorStore Chatbot Spec VectorStoreFacts.
Local Open Scope Z_scope.

Section Steps.
Context {coll : Type}.

Lemma bind_Return {A B} (m : M coll A) (k : A -> M coll B)
    (s s' : state coll) (a : A) :
  m s = (Return a, s') -> bind m k s = k a s'.
Proof. unfold bind; now intros ->. Qed.

Lemma bind_Raise {A B} (m : M coll A) (k : A -> M coll B)
    (s s' : state coll) (e : exn) :
  m s = (Raise e, s') -> bind m k s = (Raise e, s').
Proof. unfold bind; now intros ->. Qed.

Lemma read_turns_length (h : list obj) (items : list nat) :
  forall ts, read_turns h items = Some ts -> length ts = length items.
Proof.
  induction items as [|d items IH]; simpl; intros ts H.
  - now injection H as <-.
  - destruct (h !! d) as [[|t]|]; try discriminate.
    destruct (read_turns h items) as [ts'|]; [|discriminate].
    injection H as <-. simpl. f_equal. now apply IH.
Qed.

(** Allocation leaves the turns that were there where they were. *)
Lemma read_turns_app_heap (h h' : list obj) (items : list nat) :
  forall ts, read_turns h items = Some ts ->
             read_turns (h ++ h') items = Some ts.
Proof.
  induction items as [|d items IH]; simpl; intros ts H; [exact H|].
  destruct (h !! d) as [[|t]|] eqn:Hd; try discriminate.
  destruct (read_turns h items) as [ts'|]; [|discriminate].
  rewrite (lookup_app_l_Some _ _ _ _ Hd), (IH ts' eq_refl). exact H.
Qed.

(** Writing to a list object leaves the turn dicts as they were. *)
Lemma read_turns_insert_list (h : list obj) (l : nat) (old new : list nat)
    (items : list nat) :
  h !! l = Some (OList old) ->
  forall ts, read_turns h items = Some ts ->
             read_turns (<[l := OList new]> h) items = Some ts.
Proof.
  intros Hl; induction items as [|d items IH]; simpl; intros ts H;
    [exact H|].
  destruct (h !! d) as [[|t]|] eqn:Hd; try discriminate.
  destruct (read_turns h items) as [ts'|]; [|discriminate].
  assert (l <> d) by (intros ->; congruence).
  rewrite list_lookup_insert_ne by assumption.
  rewrite Hd, (IH ts' eq_refl). exact H.
Qed.

Lemma read_turns_snoc (h : list obj) (d : nat) (t : turn) (items : list nat) :
  h !! d = Some (ODict t) ->
  forall ts, read_turns h items = Some ts ->
             read_turns h (items ++ [d]) = Some (ts ++ [t]).
Proof.
  intros Hd; induction items as [|d' items IH]; simpl; intros ts H.
  - injection H as <-. now rewrite Hd.
  - destruct (h !! d') as [[|t']|]; try discriminate.
    destruct (read_turns h items) as [ts'|]; [|discriminate].
    injection H as <-. now rewrite (IH ts' eq_refl).
Qed.

Lemma read_turns_drop (h : list obj) (k : nat) :
  forall (items : list nat) (ts : list turn),
    read_turns h items = Some ts ->
    read_turns h (drop k items) = Some (drop k ts).
Proof.
  induction k as [|k IH]; intros items ts H; [exact H|].
  destruct items as [|d items]; simpl in *.
  - now injection H as <-.
  - destruct (h !! d) as [[|t]|]; try discriminate.
    destruct (read_turns h items) as [ts'|] eqn:E; [|discriminate].
    injection H as <-. simpl. now apply IH.
Qed.

(** The loop over the recent history sends the user and assistant turns
    and changes nothing. *)
Lemma history_loop_forwarded (recent : list nat) :
  forall (messages : list message) (s : state coll) (ts : list turn),
    read_turns (heap s) recent = Some ts ->
    history_loop recent messages s = (Return (messages ++ forwarded ts), s).
Proof.
  induction recent as [|d recent IH]; simpl; intros messages s ts H.
  - injection H as <-. unfold ret. simpl. now rewrite app_nil_r.
  - destruct (heap s !! d) as [[|t]|] eqn:Hd; try discriminate.
    destruct (read_turns (heap s) recent) as [ts'|] eqn:E; [|discriminate].
    injection H as <-.
    rewrite (bind_Return _ _ s s t) by (unfold read_dict; now rewrite Hd).
    simpl forwarded.
    destruct (String.eqb (role t) "user");
      [|destruct (String.eqb (role t) "assistant")];
      rewrite (IH _ s ts' E); simpl; now rewrite <- ?app_assoc.
Qed.

Lemma alloc_lookup (h : list obj) (o : obj) : (h ++ [o]) !! length h = Some o.
Proof. now apply list_lookup_middle. Qed.

Lemma list_append_ok (l x : nat) (items : list nat) (s : state coll) :
  heap s !! l = Some (OList items) ->
  list_append l x s
  = (Return tt, Build_state (<[l := OList (items ++ [x])]> (heap s))
                  (collection s) (log s) (clock s)).
Proof.
  intros H. unfold list_append, bind, read_list, write_list.
  rewrite H. simpl. now rewrite H.
Qed.

(** Retrieval of the context touches nothing but the log. *)
Lemma get_relevant_context_frame (svc : services coll) (query : string)
    (max_tokens : Z) (s : state coll) :
  exists context lg,
    get_relevant_context svc query max_tokens s
    = (Return context, Build_state (heap s) (collection s) lg (clock s)).
Proof.
  destruct (search_returns svc query 10 s) as [results [lg Hs]].
  unfold get_relevant_context, try_except, bind. rewrite Hs.
  destruct results as [|r rest]; [unfold ret; eauto|].
  destruct (assemble (r :: rest) max_tokens) as [context tokens].
  unfold logger, ret. simpl. eauto.
Qed.

Lemma slice_bound_last (n : nat) :
  Z.to_nat (slice_bound (Z.of_nat n) (-10)) = (n - 10)%nat.
Proof. unfold slice_bound. simpl. lia. Qed.

Lemma holds_history (self : PMCChatbot) (s : state coll) (ts : list turn) :
  history self s = Some ts <-> exists items, holds self s items ts.
Proof.
  unfold history, holds. split.
  - destruct (history_items self s) as [items|]; [eauto|discriminate].
  - intros [items [-> H]]. exact H.
Qed.

Lemma holds_heap (self : PMCChatbot) (s s' : state coll)
    (items : list nat) (ts : list turn) :
  heap s' = heap s -> holds self s items ts -> holds self s' items ts.
Proof. unfold holds, history_items. now intros ->. Qed.

Lemma holds_lookup (self : PMCChatbot) (s : state coll)
    (items : list nat) (ts : list turn) :
  holds self s items ts ->
  heap s !! conversation_history self = Some (OList items).
Proof.
  intros [H _]. unfold history_items in H.
  destruct (heap s !! conversation_history self) as [[|]|];
    congruence.
Qed.

Lemma holds_alloc (self : PMCChatbot) (s s' : state coll) (o : obj)
    (items : list nat) (ts : list turn) :
  heap s' = heap s ++ [o] -> holds self s items ts -> holds self s' items ts.
Proof.
  intros Hh H. pose proof (holds_lookup _ _ _ _ H) as Hl.
  destruct H as [_ Ht]. unfold holds, history_items. rewrite Hh.
  rewrite (lookup_app_l_Some _ _ _ _ Hl). split; [reflexivity|].
  now apply read_turns_app_heap.
Qed.

(** Appending a new turn dict to the history. *)
Lemma holds_record (self : PMCChatbot) (s s' : state coll) (t : turn)
    (items : list nat) (ts : list turn) :
  heap s' = <[conversation_history self :=
                OList (items ++ [length (heap s)])]> (heap s ++ [ODict t]) ->
  holds self s items ts ->
  holds self s' (items ++ [length (heap s)]) (ts ++ [t]).
Proof.
  intros Hh H. pose proof (holds_lookup _ _ _ _ H) as Hl.
  pose proof (lookup_app_l_Some _ [ODict t] _ _ Hl) as Hl'.
  destruct H as [_ Ht]. unfold holds, history_items. rewrite Hh. split.
  - rewrite list_lookup_insert_eq; [reflexivity|].
    now apply lookup_lt_Some in Hl'.
  - apply (read_turns_insert_list _ _ items _ _ Hl').
    apply read_turns_snoc; [apply alloc_lookup|].
    now apply read_turns_app_heap.
Qed.

Lemma build_messages_ok (self : PMCChatbot) (context : string)
    (s : state coll) (items : list nat) (ts : list turn) :
  holds self s items ts ->
  build_messages self context s
  = (Return (head_messages self context
             ++ forwarded (drop (length ts - 10) ts)),
     Build_state (heap s ++ [OList (drop (length items - 10) items)])
       (collection s) (log s) (clock s)).
Proof.
  intros H. pose proof (holds_lookup _ _ _ _ H) as Hl.
  destruct H as [_ Ht].
  unfold build_messages, list_slice_from.
  unfold bind at 1. unfold bind at 1. unfold read_list at 1.
  rewrite Hl. unfold alloc at 1. cbn [heap collection log clock].
  rewrite slice_bound_last.
  unfold bind at 1. unfold read_list at 1. cbn [heap collection log clock].
  rewrite alloc_lookup.
  rewrite (history_loop_forwarded _ _ _ (drop (length ts - 10) ts)).
  - unfold head_messages. destruct (String.eqb context ""); reflexivity.
  - cbn [heap]. apply read_turns_app_heap.
    rewrite (read_turns_length _ _ _ Ht). now apply read_turns_drop.
Qed.

(** [get_response] up to the call of the completion service: the user turn
    is in the history, the clock has ticked once, and the messages are the
    system messages followed by the last ten turns. *)
Lemma get_response_prefix {B} (svc : services coll) (self : PMCChatbot)
    (user_message : string) (use_context : bool) (s : state coll)
    (items : list nat) (ts : list turn)
    (k : string -> list message -> M coll B) :
  holds self s items ts ->
  let u := user_turn user_message (now svc (clock s)) in
  exists context s3,
    bind (timestamp_now svc) (fun t =>
    bind (alloc (ODict {| role := "user"; t_content := user_message;
                          timestamp := t |})) (fun d =>
    bind (list_append (conversation_history self) d) (fun _ =>
    bind (if use_context then get_relevant_context svc user_message 2000
          else ret "") (fun context =>
    bind (build_messages self context) (fun messages =>
    k context messages))))) s
    = k context
        (head_messages self context
         ++ forwarded (drop (length (ts ++ [u]) - 10) (ts ++ [u]))) s3
    /\ holds self s3 (items ++ [length (heap s)]) (ts ++ [u])
    /\ clock s3 = S (clock s)
    /\ collection s3 = collection s.
Proof.
  intros H u. pose proof (holds_lookup _ _ _ _ H) as Hl.
  unfold bind at 1. unfold timestamp_now at 1.
  unfold bind at 1. unfold alloc at 1. cbn [heap collection log clock].
  set (s1 := Build_state (heap s ++ [ODict _]) _ _ _).
  rewrite (bind_Return _ _ s1 _ tt
             (list_append_ok _ _ items s1 (lookup_app_l_Some _ _ _ _ Hl))).
  cbn [heap collection log clock].
  set (s2 := Build_state (<[_ := _]> _) _ _ _).
  assert (H2 : holds self s2 (items ++ [length (heap s)]) (ts ++ [u]))
    by (apply (holds_record self s s2 u items ts eq_refl H)).
  assert (Hctx : exists context lg,
    (if use_context then get_relevant_context svc user_message 2000
     else ret "") s2
    = (Return context, Build_state (heap s2) (collection s2) lg (clock s2))).
  { destruct use_context; [apply get_relevant_context_frame|].
    exists "", (log s2). reflexivity. }
  destruct Hctx as [context [lg Hctx]].
  rewrite (bind_Return _ _ _ _ _ Hctx).
  set (s2' := Build_state (heap s2) _ lg _).
  assert (H2' : holds self s2' (items ++ [length (heap s)]) (ts ++ [u]))
    by (apply (holds_heap self s2 s2' _ _ eq_refl H2)).
  rewrite (bind_Return _ _ _ _ _ (build_messages_ok self context s2' _ _ H2')).
  exists context. eexists. split; [reflexivity|].
  split; [|split; reflexivity].
  eapply holds_alloc; [|exact H2']. reflexivity.
Qed.

End Steps.

(** C1 as stated fails: the history is empty before the call, the
    completion service raises, and the history holds the user turn after
    the call. *)
Lemma failed_request_leaves_user_turn :
  history new_chatbot new_state = Some []
  /\ fst (get_response completion_down sample_config new_chatbot
            "What is the PMO?" false new_state)
     = Return (ErrorResponse apology "Connection error."
                 "2024-01-01T00:00:01")
  /\ history new_chatbot
       (snd (get_response completion_down sample_config new_chatbot
               "What is the PMO?" false new_state))
     = Some [user_turn "What is the PMO?" "2024-01-01T00:00:00"].
Proof. repeat split. Qed.

Lemma forwarded_length (ts : list turn) :
  (length (forwarded ts) <= length ts)%nat.
Proof.
  induction ts as [|t ts IH]; simpl; [lia|].
  destruct (String.eqb (role t) "user");
    [|destruct (String.eqb (role t) "assistant")]; simpl; lia.
Qed.

Lemma get_collection_stats_frame {coll} (svc : services coll) (cfg : config)
    (s : state coll) :
  exists stats lg,
    get_collection_stats svc cfg s
    = (Return stats, Build_state (heap s) (collection s) lg (clock s)).
Proof.
  unfold get_collection_stats, try_except, bind, get_collection, lift,
    logger, ret. simpl.
  destruct (coll_count svc (collection s)); simpl; eauto.
  destruct s; simpl; eauto.
Qed.

Lemma get_system_info_length {coll} (svc : services coll) (cfg : config)
    (self : PMCChatbot) (s : state coll) (ts : list turn) :
  history self s = Some ts ->
  exists info s',
    get_system_info svc cfg self s = (Return (Some info), s')
    /\ conversation_length info = Z.of_nat (length ts).
Proof.
  intros Hh. apply holds_history in Hh as [items Hh].
  pose proof (holds_lookup _ _ _ _ Hh) as Hl. destruct Hh as [_ Ht].
  destruct (get_collection_stats_frame svc cfg s) as [stats [lg Hs]].
  unfold get_system_info, try_except, bind. rewrite Hs.
  unfold read_list. cbn [heap]. rewrite Hl. unfold ret.
  do 2 eexists. split; [reflexivity|]. simpl.
  now rewrite (read_turns_length _ _ _ Ht).
Qed.

(** C7: the messages built for the completion service are the system
    messages followed by the user and assistant turns among the last ten
    turns of the history, in their order; building them leaves the stored
    history as it was, and the conversation length reported afterwards is
    the length of the whole history. *)
Theorem build_messages_window {coll} (svc : services coll) (cfg : config)
    (self : PMCChatbot) (context : string) (s : state coll)
    (ts : list turn) :
  history self s = Some ts ->
  exists (recent : list turn) (s' : state coll),
    recent = drop (length ts - 10) ts
    /\ length recent = Nat.min 10 (length ts)
    /\ build_messages self context s
       = (Return (head_messages self context ++ forwarded recent), s')
    /\ (length (forwarded recent) <= 10)%nat
    /\ history self s' = Some ts
    /\ exists info s'',
         get_system_info svc cfg self s' = (Return (Some info), s'')
         /\ conversation_length info = Z.of_nat (length ts).
Proof.
  intros Hh. pose proof Hh as Hi. apply holds_history in Hi as [items Hi].
  exists (drop (length ts - 10) ts). eexists.
  split; [reflexivity|].
  assert (Hlen : length (drop (length ts - 10) ts) = Nat.min 10 (length ts))
    by (rewrite length_drop; lia).
  split; [exact Hlen|].
  split; [exact (build_messages_ok self context s items ts Hi)|].
  split; [pose proof (forwarded_length (drop (length ts - 10) ts)); lia|].
  assert (Hh' : history self
    (Build_state (heap s ++ [OList (drop (length items - 10) items)])
       (collection s) (log s) (clock s)) = Some ts).
  { apply holds_history. exists items.
    eapply holds_alloc; [|exact Hi]. reflexivity. }
  split; [exact Hh'|].
  exact (get_system_info_length svc cfg self _ ts Hh').
Qed.

Lemma build_messages_window_witness :
  exists (recent : list turn) (s' : state (list entry)),
    recent = drop (length twelve_turns - 10) twelve_turns
    /\ length recent = Nat.min 10 (length twelve_turns)
    /\ build_messages new_chatbot "" long_state
       = (Return (head_messages new_chatbot "" ++ forwarded recent), s')
    /\ (length (forwarded recent) <= 10)%nat
    /\ history new_chatbot s' = Some twelve_turns
    /\ exists info s'',
         get_system_info memory_services sample_config new_chatbot s'
         = (Return (Some info), s'')
         /\ conversation_length info = Z.of_nat (length twelve_turns).
Proof.
  exact (build_messages_window memory_services sample_config new_chatbot ""
           long_state twelve_turns eq_refl).
Defined.

(** C10: [get_conversation_history] returns a new list object with the
    items of the history; whatever is then written to the returned list,
    the history list and the turns read through it stay as they were. *)
Theorem get_conversation_history_is_copy {coll} (self : PMCChatbot)
    (s : state coll) (items : list nat) :
  history_items self s = Some items ->
  exists (returned : nat) (s1 : state coll),
    get_conversation_history self s = (Return returned, s1)
    /\ returned <> conversation_history self
    /\ heap s1 !! returned = Some (OList items)
    /\ history_items self s1 = Some items
    /\ forall items' : list nat,
       exists s2 : state coll,
         write_list returned items' s1 = (Return tt, s2)
         /\ heap s2 !! returned = Some (OList items')
         /\ history_items self s2 = Some items
         /\ history self s2 = history self s.
Proof.
  intros Hi. unfold history_items in Hi.
  destruct (heap s !! conversation_history self) as [[its|]|] eqn:Hl;
    try discriminate. injection Hi as ->.
  pose proof (lookup_lt_Some _ _ _ Hl) as Hlt.
  exists (length (heap s)).
  exists (Build_state (heap s ++ [OList items]) (collection s) (log s)
            (clock s)).
  split.
  { unfold get_conversation_history, bind, read_list. now rewrite Hl. }
  split; [lia|]. cbn [heap].
  split; [apply alloc_lookup|].
  split.
  { unfold history_items. cbn [heap].
    now rewrite (lookup_app_l_Some _ _ _ _ Hl). }
  intros items'. eexists. split.
  { unfold write_list. cbn [heap collection log clock].
    rewrite alloc_lookup. reflexivity. }
  cbn [heap].
  assert (Hother : forall d, d <> length (heap s) ->
            <[length (heap s) := OList items']> (heap s ++ [OList items]) !! d
            = heap s !! d).
  { intros d Hd. rewrite list_lookup_insert_ne by lia.
    destruct (Nat.lt_ge_cases d (length (heap s))) as [Hd'|Hd'].
    - now apply lookup_app_l.
    - rewrite !lookup_ge_None_2; [reflexivity|lia|].
      rewrite length_app. simpl. lia. }
  split.
  { apply list_lookup_insert_eq. rewrite length_app. simpl. lia. }
  assert (Hhist : history_items self
            (Build_state (<[length (heap s) := OList items']>
                            (heap s ++ [OList items]))
               (collection s) (log s) (clock s)) = Some items).
  { unfold history_items. cbn [heap]. rewrite Hother by lia. now rewrite Hl. }
  split; [exact Hhist|].
  unfold history. rewrite Hhist. unfold history_items. rewrite Hl.
  cbn [heap]. generalize items at 2 3. intros xs.
  induction xs as [|d rest IH]; [reflexivity|]. simpl. rewrite IH.
  destruct (Nat.eq_dec d (length (heap s))) as [->|Hd].
  - rewrite list_lookup_insert_eq by (rewrite length_app; simpl; lia).
    rewrite lookup_ge_None_2 by lia. reflexivity.
  - now rewrite Hother.
Qed.

Lemma get_conversation_history_is_copy_witness :
  exists (returned : nat) (s1 : state (list entry)),
    get_conversation_history new_chatbot long_state = (Return returned, s1)
    /\ returned <> conversation_history new_chatbot
    /\ heap s1 !! returned = Some (OList (seq 1 12))
    /\ history_items new_chatbot s1 = Some (seq 1 12)
    /\ forall items' : list nat,
       exists s2 : state (list entry),
         write_list returned items' s1 = (Return tt, s2)
         /\ heap s2 !! returned = Some (OList items')
         /\ history_items new_chatbot s2 = Some (seq 1 12)
         /\ history new_chatbot s2 = history new_chatbot long_state.
Proof.
  exact (get_conversation_history_is_copy new_chatbot long_state (seq 1 12)
           eq_refl).
Defined.

(** C6 as amended: when the embedding step or the index query raises,
    [search] and [search_documents] return the empty list, and the failure
    goes to the log as one ERROR line; nothing else of the state changes. *)
Theorem retrieval_failure_returns_empty {coll} (svc : services coll)
    (query : string) (n_results : Z) (s : state coll) (e : exn) :
  encode svc [query] = Raise e
  \/ (exists embedding, encode svc [query] = Return embedding
        /\ coll_query svc (collection s) embedding n_results = Raise e) ->
  search svc query n_results s
  = (Return [], logged s ERROR (search_error e))
  /\ search_documents svc query n_results s
     = (Return [], logged s ERROR (search_error e)).
Proof.
  intros H. pose proof (search_failure svc query n_results s e H) as Hs.
  split; [exact Hs|].
  unfold search_documents, try_except, bind. now rewrite Hs.
Qed.

Lemma retrieval_failure_returns_empty_witness :
  search embedding_down "What is the PMO?" 5 new_state
  = (Return [], logged new_state ERROR
                  (search_error (ExternalError "model not loaded")))
  /\ search_documents embedding_down "What is the PMO?" 5 new_state
     = (Return [], logged new_state ERROR
                     (search_error (ExternalError "model not loaded"))).
Proof.
  exact (retrieval_failure_returns_empty embedding_down "What is the PMO?" 5
           new_state (ExternalError "model not loaded") (or_introl eq_refl)).
Defined.

(** C6 as stated fails: a search whose embedding step raises and a search
    of an empty collection that succeeds hand the same value, the empty
    list, to the caller; only the log tells them apart. *)
Lemma failed_search_looks_empty :
  fst (search embedding_down "What is the PMO?" 5 new_state) = Return []
  /\ fst (search memory_services "What is the PMO?" 5 new_state) = Return []
  /\ fst (search_documents embedding_down "What is the PMO?" 5 new_state)
     = fst (search_documents memory_services "What is the PMO?" 5 new_state)
  /\ log (snd (search embedding_down "What is the PMO?" 5 new_state))
     = [(ERROR, "Error searching vector store: model not loaded")]
  /\ log (snd (search memory_services "What is the PMO?" 5 new_state))
     = [(INFO, "Found 0 relevant documents for query: What is the PMO?...")].
Proof. repeat split. Qed.

End ChatbotFacts.

(** ** More facts about the text utilities *)

Module UtilsMore.
Import Utils Spec UtilsFacts.
Local Open Scope Z_scope.

Lemma length_append (s t : string) :
  String.length (s ++ t) = (String.length s + String.length t)%nat.
Proof. induction s as [|c s IH]; simpl; [reflexivity|now rewrite IH]. Qed.

Lemma substring_length_le (s : string) :
  forall n m : nat, (String.length (substring n m s) <= m)%nat.
Proof.
  induction s as [|c s IH]; intros n m.
  - destruct n, m; simpl; lia.
  - destruct n as [|n]; simpl.
    + destruct m as [|m]; simpl; [lia|]. specialize (IH 0%nat m). lia.
    + apply IH.
Qed.

Lemma substring_prefix_length (s : string) :
  forall m : nat, (m <= String.length s)%nat ->
                  String.length (substring 0 m s) = m.
Proof.
  induction s as [|c s IH]; intros m Hm; simpl in *.
  - destruct m; [reflexivity|lia].
  - destruct m as [|m]; [reflexivity|]. simpl. f_equal. apply IH. lia.
Qed.

Lemma lstrip_length (s : string) :
  (String.length (lstrip s) <= String.length s)%nat.
Proof.
  induction s as [|c s IH]; simpl; [lia|].
  destruct (is_space c); simpl; lia.
Qed.

Lemma rstrip_length (s : string) :
  (String.length (rstrip s) <= String.length s)%nat.
Proof.
  induction s as [|c s IH]; simpl; [lia|].
  destruct (rstrip s); [destruct (is_space c)|]; simpl in *; lia.
Qed.

Lemma strip_length (s : string) : len (strip s) <= len s.
Proof.
  unfold len, strip.
  pose proof (lstrip_length (rstrip s)). pose proof (rstrip_length s). lia.
Qed.

(** A text longer than a non-negative [max_length] is cut to its first
    [max_length] characters and gets the three dots: the result is three
    characters longer than [max_length]. *)
Theorem truncate_text_long (text : string) (max_length : Z) :
  0 <= max_length < len text ->
  truncate_text text max_length
  = (substring 0 (Z.to_nat max_length) text ++ "...")%string
  /\ len (truncate_text text max_length) = max_length + 3.
Proof.
  intros [H0 Hlt]. unfold truncate_text.
  destruct (Z.leb_spec (len text) max_length) as [?|_]; [lia|].
  assert (Hs : slice text 0 max_length = substring 0 (Z.to_nat max_length) text).
  { unfold slice, slice_bound. simpl.
    destruct (Z.ltb_spec max_length 0) as [?|_]; [lia|].
    replace (Z.to_nat (Z.min (len text) (Z.max 0 0))) with 0%nat by lia.
    f_equal. lia. }
  rewrite Hs. split; [reflexivity|].
  unfold len in *. rewrite length_append, substring_prefix_length by lia.
  simpl. lia.
Qed.

Lemma truncate_text_long_witness :
  truncate_text "abcdefgh" 6 = "abcdef..."
  /\ len (truncate_text "abcdefgh" 6) = 6 + 3.
Proof.
  apply (truncate_text_long "abcdefgh" 6). unfold len. simpl. lia.
Defined.

Lemma collapse_spaces_chars (s : string) :
  forall (in_run : bool) (c : ascii),
    In c (chars (collapse_spaces in_run s)) ->
    c = " "%char \/ (is_space c = false /\ In c (chars s)).
Proof.
  unfold chars. induction s as [|a s IH]; intros in_run c H; [destruct H|].
  simpl in H. destruct (is_space a) eqn:Ea.
  - destruct in_run; simpl in H.
    + destruct (IH _ _ H) as [?|[? ?]]; [now left|right; simpl; auto].
    + destruct H as [<-|H]; [now left|].
      destruct (IH _ _ H) as [?|[? ?]]; [now left|right; simpl; auto].
  - simpl in H. destruct H as [<-|H]; [right; simpl; auto|].
    destruct (IH _ _ H) as [?|[? ?]]; [now left|right; simpl; auto].
Qed.

Lemma remove_special_chars (s : string) (c : ascii) :
  In c (chars (remove_special s)) -> is_kept c = true /\ In c (chars s).
Proof.
  unfold chars. induction s as [|a s IH]; intros H; [destruct H|].
  simpl in H. destruct (is_kept a) eqn:Ea.
  - simpl in H. destruct H as [<-|H]; [simpl; auto|].
    destruct (IH H); simpl; auto.
  - destruct (IH H); simpl; auto.
Qed.

Lemma remove_special_length (s : string) :
  (String.length (remove_special s) <= String.length s)%nat.
Proof.
  induction s as [|a s IH]; simpl; [lia|].
  destruct (is_kept a); simpl; lia.
Qed.

Lemma collapse_spaces_length (s : string) :
  forall in_run : bool,
    (String.length (collapse_spaces in_run s) <= String.length s)%nat.
Proof.
  induction s as [|a s IH]; intros in_run; simpl; [lia|].
  destruct (is_space a); [destruct in_run|]; simpl;
    match goal with |- context [collapse_spaces ?b s] =>
      specialize (IH b) end; lia.
Qed.

(** Every character of a cleaned text is a word character, the space or
    one of the marks . , ! ? : ; - ( ): no tab, newline or other blank is
    left, and no other symbol; and cleaning never makes a text longer. *)
Theorem clean_text_alphabet (text : string) :
  Forall clean_char (chars (clean_text text))
  /\ len (clean_text text) <= len text.
Proof.
  unfold clean_text. destruct (String.eqb text ""); [split; [constructor|]|].
  { unfold len; simpl; lia. }
  split.
  - apply List.Forall_forall. intros c Hc.
    apply remove_special_chars in Hc as [Hk Hc].
    apply collapse_spaces_chars in Hc as [->|[Hs _]];
      [right; now left|].
    unfold is_kept in Hk. rewrite Hs, orb_false_r in Hk.
    apply orb_true_iff in Hk as [Hw|Hp]; [now left|right; right].
    apply existsb_exists in Hp as [x [Hx Heq]].
    apply Ascii.eqb_eq in Heq. now subst.
  - pose proof (remove_special_length (collapse_spaces false (strip text))).
    pose proof (collapse_spaces_length (strip text) false).
    pose proof (strip_length text). unfold len in *. lia.
Qed.

Lemma slice_length (text : string) (a b : Z) :
  0 <= a -> 0 <= b -> len (slice text a b) <= Z.max 0 (b - a).
Proof.
  intros Ha Hb. unfold slice, slice_bound.
  destruct (Z.ltb_spec a 0) as [?|_]; [lia|].
  destruct (Z.ltb_spec b 0) as [?|_]; [lia|].
  match goal with |- len (substring ?n ?m _) <= _ =>
    pose proof (substring_length_le text n m) end.
  unfold len in *. lia.
Qed.

(** One pass of the loop, started inside the text, appends at most one
    chunk, of at most [chunk_size + 1] characters. *)
Lemma chunk_body_bound (text : string) (chunk_size overlap start : Z)
    (chunks : list string) (r : step) :
  0 <= start -> 0 <= chunk_size ->
  Forall (fun c => len c <= chunk_size + 1) chunks ->
  chunk_body text chunk_size overlap start chunks = Return r ->
  Forall (fun c => len c <= chunk_size + 1)
    match r with Next _ c => c | Break c => c end.
Proof.
  intros Hs Hcs Hc. unfold chunk_body; cbv zeta.
  set (lo := Z.max (start + chunk_size - 100) start).
  set (end_ := start + chunk_size).
  assert (Hlo : start <= lo /\ start + chunk_size - 100 <= lo) by lia.
  assert (Hend : end_ = start + chunk_size) by reflexivity.
  clearbody lo end_.
  destruct (if end_ <? len text then _ else _) as [b|e] eqn:Hf;
    [|discriminate].
  assert (Hb : match b with Some e => 0 <= e <= end_ + 1 | None => True end).
  { destruct (end_ <? len text) eqn:Hlt.
    - apply Z.ltb_lt in Hlt.
      destruct (find_boundary_in_range text (Z.to_nat (end_ - lo)) end_)
        as [b' [Hb' Hr]]; [lia|lia|].
      rewrite Hb' in Hf. injection Hf as <-. destruct b'; [lia|exact I].
    - injection Hf as <-. exact I. }
  set (e := match b with Some e => e | None => end_ end).
  assert (He : 0 <= e <= start + chunk_size + 1) by (subst e; destruct b; lia).
  set (chunk := strip (slice text start e)).
  assert (Hchunk : len chunk <= chunk_size + 1).
  { subst chunk. pose proof (strip_length (slice text start e)).
    pose proof (slice_length text start e). lia. }
  assert (Hnew : Forall (fun c => len c <= chunk_size + 1)
            (if String.eqb chunk "" then chunks else chunks ++ [chunk])).
  { destruct (String.eqb chunk ""); [exact Hc|].
    apply Forall_app; split; [exact Hc|]. constructor; [exact Hchunk|constructor]. }
  destruct (_ <=? _); intros [= <-]; exact Hnew.
Qed.

Lemma chunk_loop_bound (text : string) (chunk_size overlap : Z) :
  0 <= overlap < min_advance chunk_size ->
  forall (fuel : nat) (start : Z) (chunks r : list string),
    0 <= start ->
    Forall (fun c => len c <= chunk_size + 1) chunks ->
    chunk_loop fuel text chunk_size overlap start chunks = Some (Return r) ->
    Forall (fun c => len c <= chunk_size + 1) r.
Proof.
  intros [Hov0 Hov]. assert (Hcs : 0 <= chunk_size) by (unfold min_advance in Hov; lia).
  induction fuel as [|fuel IH]; intros start chunks r Hs Hc H; [discriminate|].
  simpl in H. destruct (start <? len text); [|now injection H as <-].
  destruct (chunk_body_progress text chunk_size overlap start chunks Hov Hs)
    as [[c' E]|[s' [c' [E Hp]]]]; rewrite E in H;
    pose proof (chunk_body_bound _ _ _ _ _ _ Hs Hcs Hc E) as Hc'; simpl in Hc'.
  - now injection H as <-.
  - apply (IH s' c' r); [lia|exact Hc'|exact H].
Qed.

(** With [0 <= overlap] below the least advance of a pass, no chunk is
    longer than [chunk_size + 1]: one character more than [chunk_size],
    when the character right after the tentative boundary ends a sentence
    and is taken into the chunk. *)
Theorem chunk_text_chunk_length (fuel : nat) (text : string)
    (chunk_size overlap : Z) (chunks : list string) :
  0 <= overlap < min_advance chunk_size ->
  chunk_text fuel text chunk_size overlap = Some (Return chunks) ->
  Forall (fun c => len c <= chunk_size + 1) chunks.
Proof.
  intros Hov. unfold chunk_text.
  destruct (Z.leb_spec (len text) chunk_size) as [Hle|_].
  - intros [= <-]. constructor; [lia|constructor].
  - apply (chunk_loop_bound text chunk_size overlap Hov); [lia|constructor].
Qed.

Lemma chunk_text_chunk_length_witness :
  chunk_text 20 "abcd.fgh" 4 0 = Some (Return ["abcd."; "fgh"])
  /\ Forall (fun c => len c <= 4 + 1) ["abcd."; "fgh"].
Proof.
  split; [reflexivity|].
  apply (chunk_text_chunk_length 20 "abcd.fgh" 4 0); [|reflexivity].
  unfold min_advance. lia.
Defined.

End UtilsMore.

(** ** More facts about the vector store *)

Module VectorStoreMore.
Import Utils VectorStore Spec VectorStoreFacts.
Local Open Scope Z_scope.

Lemma format_loop_shortest (docs : list string) :
  forall (i : Z) (metas : list (gmap string mval)) (dists : list float),
    let n := Nat.min (length docs)
               (Nat.min (length metas) (length dists)) in
    length (format_loop i docs metas dists) = n
    /\ map rank (format_loop i docs metas dists)
       = map (fun k => i + Z.of_nat k + 1) (seq 0 n)
    /\ map content (format_loop i docs metas dists) = take n docs
    /\ map similarity_score (format_loop i docs metas dists)
       = map (fun distance => (1 - distance)%float) (take n dists).
Proof.
  induction docs as [|doc docs IH]; intros i metas dists; [repeat split|].
  destruct metas as [|m metas]; [repeat split|].
  destruct dists as [|d dists]; [repeat split|].
  destruct (IH (i + 1) metas dists) as [H1 [H2 [H3 H4]]].
  simpl. rewrite H1, H2, H3, H4. repeat split.
  f_equal; [lia|]. rewrite <- seq_shift, map_map.
  apply map_ext; intros k; lia.
Qed.

(** When the index answers with lists of different lengths, [search]
    returns as many results as the shortest of the three holds, ranked
    1, 2, ... without gaps; documents beyond that length are left out. *)
Theorem search_truncates_to_shortest {coll} (svc : services coll)
    (query : string) (n_results : Z) (s : state coll)
    (embedding : list (list float)) (answer : query_result)
    (docs : list string) (metas : list (gmap string mval))
    (dists : list float) (more_docs : list (list string))
    (more_metas : list (list (gmap string mval)))
    (more_dists : list (list float)) :
  encode svc [query] = Return embedding ->
  coll_query svc (collection s) embedding n_results = Return answer ->
  documents answer = Some (docs :: more_docs) ->
  metadatas answer = Some (metas :: more_metas) ->
  distances answer = Some (dists :: more_dists) ->
  let n := Nat.min (length docs) (Nat.min (length metas) (length dists)) in
  exists results,
    fst (search svc query n_results s) = Return results
    /\ length results = n
    /\ map rank results = map (fun k => Z.of_nat k + 1) (seq 0 n)
    /\ map content results = take n docs.
Proof.
  intros Henc Hq Hdocs Hmetas Hdists n.
  assert (Hfmt : format_results answer
                 = Return (format_loop 0 docs metas dists)).
  { unfold format_results. rewrite Hdocs, Hmetas, Hdists. simpl.
    destruct docs as [|doc docs]; reflexivity. }
  destruct (format_loop_shortest docs 0 metas dists) as [H1 [H2 [H3 _]]].
  exists (format_loop 0 docs metas dists). split.
  - unfold search, try_except, bind, lift, get_collection, logger, ret.
    rewrite Henc. simpl. rewrite Hq, Hfmt. reflexivity.
  - repeat split; assumption.
Qed.

Lemma search_truncates_to_shortest_witness :
  exists results,
    fst (search (with_query memory_services (fun _ _ _ => Return uneven_answer))
           "office" 5 new_state) = Return results
    /\ length results = 1%nat
    /\ map rank results = [1]
    /\ map content results = ["first"].
Proof.
  exact (search_truncates_to_shortest
           (with_query memory_services (fun _ _ _ => Return uneven_answer))
           "office" 5 new_state [[1%float; 0%float]] uneven_answer
           ["first"; "second"] [∅; ∅] [0.25%float] [] [] []
           eq_refl eq_refl eq_refl eq_refl eq_refl).
Defined.

(** [search] never raises: it returns a list and leaves the store, the
    collection and the clock as they were, with exactly one more line in
    the log. *)
Theorem search_only_logs {coll} (svc : services coll) (query : string)
    (n_results : Z) (s : state coll) :
  exists results lv msg,
    search svc query n_results s = (Return results, logged s lv msg).
Proof.
  unfold search, try_except, bind, lift, get_collection, logger, ret, logged.
  destruct (encode svc [query]) as [embedding|e]; simpl; [|eauto].
  destruct (coll_query svc (collection s) embedding n_results) as [answer|e];
    simpl; [|eauto].
  destruct (format_results answer) as [formatted|e]; simpl; eauto.
Qed.

(** When the index answers with documents and no metadata list, or no
    distance list, [search] returns the empty list and logs the error. *)
Theorem search_missing_field {coll} (svc : services coll) (query : string)
    (n_results : Z) (s : state coll) (embedding : list (list float))
    (answer : query_result) (doc : string) (docs : list string)
    (more_docs : list (list string)) :
  encode svc [query] = Return embedding ->
  coll_query svc (collection s) embedding n_results = Return answer ->
  documents answer = Some ((doc :: docs) :: more_docs) ->
  metadatas answer = None
  \/ (exists metas, first (metadatas answer) = Return metas)
     /\ distances answer = None ->
  search svc query n_results s
  = (Return [], logged s ERROR (search_error TypeError)).
Proof.
  intros Henc Hq Hdocs Hmiss.
  assert (Hfmt : format_results answer = Raise TypeError).
  { unfold format_results. rewrite Hdocs.
    destruct Hmiss as [->|[[metas ->] ->]]; reflexivity. }
  unfold search, try_except, bind, lift, get_collection, logger, ret.
  rewrite Henc. simpl. rewrite Hq, Hfmt. reflexivity.
Qed.

Lemma search_missing_field_witness :
  search (with_query memory_services
            (fun _ _ _ => Return answer_without_metadata))
    "office" 5 new_state
  = (Return [], logged new_state ERROR (search_error TypeError)).
Proof.
  exact (search_missing_field
           (with_query memory_services
              (fun _ _ _ => Return answer_without_metadata))
           "office" 5 new_state [[1%float; 0%float]] answer_without_metadata
           "first" [] [] eq_refl eq_refl eq_refl (or_introl eq_refl)).
Defined.

(** When the index answers with no document list, with an empty one, or
    with an empty list for the query, [search] returns the empty list as a
    normal result, whatever the other fields hold. *)
Theorem search_empty_answer {coll} (svc : services coll) (query : string)
    (n_results : Z) (s : state coll) (embedding : list (list float))
    (answer : query_result) :
  encode svc [query] = Return embedding ->
  coll_query svc (collection s) embedding n_results = Return answer ->
  documents answer = None \/ documents answer = Some []
  \/ (exists more, documents answer = Some ([] :: more)) ->
  search svc query n_results s
  = (Return [],
     logged s INFO ("Found 0 relevant documents for query: "
                    ++ slice query 0 50 ++ "...")).
Proof.
  intros Henc Hq Hempty.
  assert (Hfmt : format_results answer = Return []).
  { unfold format_results.
    destruct Hempty as [->|[->|[more ->]]]; reflexivity. }
  unfold search, try_except, bind, lift, get_collection, logger, ret.
  rewrite Henc. simpl. rewrite Hq, Hfmt. reflexivity.
Qed.

Lemma search_empty_answer_witness :
  search memory_services "What is the PMO?" 5 new_state
  = (Return [],
     logged new_state INFO
       "Found 0 relevant documents for query: What is the PMO?...").
Proof.
  exact (search_empty_answer memory_services "What is the PMO?" 5 new_state
           [[1%float; 0%float]] (memory_query [] 5) eq_refl eq_refl
           (or_intror (or_intror (ex_intro _ [] eq_refl)))).
Defined.

(** *** The ids of the indexed chunks *)

Lemma to_int_proper (n : Z) :
  Z.to_int n <> Decimal.Pos Decimal.Nil /\ Z.to_int n <> Decimal.Neg Decimal.Nil.
Proof.
  destruct n as [|p|p]; simpl; split; try discriminate;
    intros [= H]; now apply (DecimalPos.Unsigned.to_uint_nonnil p).
Qed.

Lemma str_int_inj (a b : Z) : str_int a = str_int b -> a = b.
Proof.
  unfold str_int. intros H. apply DecimalZ.to_int_inj.
  destruct (to_int_proper a) as [Ha1 Ha2].
  destruct (to_int_proper b) as [Hb1 Hb2].
  pose proof (NilZero.isi _ Ha1 Ha2) as Ea.
  pose proof (NilZero.isi _ Hb1 Hb2) as Eb.
  rewrite H in Ea. congruence.
Qed.

Lemma string_of_uint_plain (d : Decimal.uint) :
  plain (NilEmpty.string_of_uint d).
Proof.
  unfold plain, chars.
  induction d; simpl; try (intros [H|H]; [discriminate|tauto]). tauto.
Qed.

Lemma str_int_plain (n : Z) : plain (str_int n).
Proof.
  unfold str_int, NilZero.string_of_int, NilZero.string_of_uint.
  destruct (Z.to_int n) as [d|d]; [destruct d|];
    try apply string_of_uint_plain.
  - unfold plain, chars; simpl. intros [H|[]]; discriminate.
  - unfold plain, chars. destruct d; simpl;
      try (intros [H|[H|H]]; try discriminate;
           now apply (string_of_uint_plain d)).
    intros [H|[H|[]]]; discriminate.
Qed.

(** Two strings without underscore are equal when they are followed by an
    underscore and the rest. *)
Lemma plain_split (a : string) :
  forall (b x y : string),
    plain a -> plain b ->
    (a ++ String "_" x)%string = (b ++ String "_" y)%string ->
    a = b /\ x = y.
Proof.
  unfold plain, chars.
  induction a as [|c a IH]; intros b x y Ha Hb H.
  - destruct b as [|c' b]; simpl in *.
    + now injection H.
    + injection H as <- _. tauto.
  - destruct b as [|c' b]; simpl in *.
    + injection H as -> _. tauto.
    + injection H as <- H. destruct (IH b x y) as [-> ->]; tauto.
Qed.

Lemma chunk_id_inj (i j i' j' : Z) :
  chunk_id i j = chunk_id i' j' -> i = i' /\ j = j'.
Proof.
  unfold chunk_id. intros H. simpl in H. injection H as H.
  apply plain_split in H as [Hi H]; try apply str_int_plain.
  injection H as H. split; now apply str_int_inj.
Qed.

Lemma doc_entries_ids (i : Z) (doc : document) (chunks : list string) :
  forall (j : Z) (id : string),
    In id (map snd (doc_entries i doc j chunks)) ->
    exists j', j <= j' /\ id = chunk_id i j'.
Proof.
  induction chunks as [|chunk rest IH]; intros j id H; [destruct H|].
  simpl in H. rewrite map_app in H. apply in_app_or in H as [H|H].
  - destruct (String.eqb (strip chunk) ""); [destruct H|].
    destruct H as [<-|[]]. exists j. split; [lia|reflexivity].
  - destruct (IH _ _ H) as [j' [Hj ->]]. exists j'. split; [lia|reflexivity].
Qed.

Lemma doc_entries_NoDup (i : Z) (doc : document) (chunks : list string) :
  forall j : Z, List.NoDup (map snd (doc_entries i doc j chunks)).
Proof.
  induction chunks as [|chunk rest IH]; intros j; [constructor|].
  simpl. rewrite map_app.
  destruct (String.eqb (strip chunk) ""); simpl; [apply IH|].
  constructor; [|apply IH]. intros H.
  apply doc_entries_ids in H as [j' [Hj Heq]].
  apply chunk_id_inj in Heq as [_ Heq]. lia.
Qed.

Lemma all_entries_ids (docs : list document) :
  forall (i : Z) (id : string),
    In id (map snd (all_entries i docs)) ->
    exists i' j', i <= i' /\ id = chunk_id i' j'.
Proof.
  induction docs as [|doc rest IH]; intros i id H; [destruct H|].
  simpl in H. rewrite map_app in H. apply in_app_or in H as [H|H].
  - apply doc_entries_ids in H as [j' [_ ->]].
    exists i, j'. split; [lia|reflexivity].
  - destruct (IH _ _ H) as [i' [j' [Hi ->]]].
    exists i', j'. split; [lia|reflexivity].
Qed.

Lemma all_entries_NoDup (docs : list document) :
  forall i : Z, List.NoDup (map snd (all_entries i docs)).
Proof.
  induction docs as [|doc rest IH]; intros i; [constructor|].
  simpl. rewrite map_app.
  apply List.NoDup_app; [apply doc_entries_NoDup|apply IH|].
  intros id H1 H2.
  apply doc_entries_ids in H1 as [j [_ ->]].
  apply all_entries_ids in H2 as [i' [j' [Hi Heq]]].
  apply chunk_id_inj in Heq as [Heq _]. lia.
Qed.

(** The ids that one call of [add_documents] gives to its chunks are
    pairwise different, whatever the documents. *)
Theorem add_documents_ids_distinct (docs : list document) :
  List.NoDup (all_ids docs).
Proof. apply all_entries_NoDup. Qed.

(** *** [add_documents] *)

Lemma doc_entries_texts (i : Z) (doc : document) (chunks : list string) :
  forall j : Z,
    map (fun e => fst (fst e)) (doc_entries i doc j chunks)
    = List.filter nonblank chunks.
Proof.
  induction chunks as [|chunk rest IH]; intros j; [reflexivity|].
  simpl. rewrite map_app, IH. unfold nonblank at 2.
  destruct (String.eqb (strip chunk) ""); reflexivity.
Qed.

Lemma all_entries_texts (docs : list document) :
  forall i : Z,
    map (fun e => fst (fst e)) (all_entries i docs) = nonblank_chunks docs.
Proof.
  unfold nonblank_chunks.
  induction docs as [|doc rest IH]; intros i; [reflexivity|].
  simpl. rewrite map_app, doc_entries_texts, IH, List.filter_app.
  reflexivity.
Qed.

Lemma add_documents_indexes_nonblank_eq {coll} (svc : services coll)
    (docs : list document) (s : state coll)
    (embeddings : list (list float)) (c' : coll) :
  nonblank_chunks docs <> [] ->
  encode svc (nonblank_chunks docs) = Return embeddings ->
  embeddings <> [] ->
  coll_add svc (collection s) embeddings (nonblank_chunks docs)
    (all_metadatas docs) (all_ids docs) = Return c' ->
  add_documents svc docs s
  = (Return true,
     logged (with_collection s c') INFO
       ("Added " ++ str_int (Z.of_nat (length (nonblank_chunks docs)))
        ++ " document chunks to vector store")).
Proof.
  intros Hne Henc Hemb Hadd.
  unfold add_documents, try_except. cbv zeta.
  rewrite (all_entries_texts docs 0).
  fold (all_metadatas docs). fold (all_ids docs).
  destruct (nonblank_chunks docs) as [|t ts] eqn:Ht; [congruence|].
  unfold bind at 1. unfold create_embeddings, try_except, bind, lift, ret.
  rewrite Henc. destruct embeddings as [|e es]; [congruence|].
  unfold bind, get_collection, lift. cbn [heap collection log clock].
  rewrite Hadd. reflexivity.
Qed.

(** The texts that [add_documents] embeds and hands to the collection are
    the non-blank chunks of the documents, in their order, with the ids and
    metadata built for them; when the embedding and the add succeed it
    returns True and the collection is the one the add produced. *)
Theorem add_documents_indexes_nonblank {coll} (svc : services coll)
    (docs : list document) (s : state coll)
    (embeddings : list (list float)) (c' : coll) :
  nonblank_chunks docs <> [] ->
  encode svc (nonblank_chunks docs) = Return embeddings ->
  embeddings <> [] ->
  coll_add svc (collection s) embeddings (nonblank_chunks docs)
    (all_metadatas docs) (all_ids docs) = Return c' ->
  add_documents svc docs s
  = (Return true,
     logged (with_collection s c') INFO
       ("Added " ++ str_int (Z.of_nat (length (nonblank_chunks docs)))
        ++ " document chunks to vector store")).
Proof. apply add_documents_indexes_nonblank_eq. Qed.

Lemma add_documents_indexes_nonblank_witness :
  add_documents memory_services [titled_document] new_state
  = (Return true,
     logged (with_collection new_state
               [ {| e_embedding := [1%float; 0%float];
                    e_document := "The office assists the Prime Minister.";
                    e_metadata := chunk_metadata titled_document 1;
                    e_id := "doc_0_chunk_1" |} ])
       INFO "Added 1 document chunks to vector store").
Proof.
  exact (add_documents_indexes_nonblank memory_services [titled_document]
           new_state [[1%float; 0%float]] _
           ltac:(discriminate) eq_refl ltac:(discriminate) eq_refl).
Defined.

Lemma add_documents_frame {coll} (svc : services coll)
    (docs : list document) (s : state coll) :
  exists (ok : bool) (s' : state coll),
    add_documents svc docs s = (Return ok, s')
    /\ heap s' = heap s /\ clock s' = clock s
    /\ (ok = false -> collection s' = collection s).
Proof.
  unfold add_documents, try_except. cbv zeta.
  destruct (map _ (all_entries 0 docs)) as [|t ts].
  { unfold bind, logger, ret. simpl. do 2 eexists. repeat split. }
  unfold bind at 1. unfold create_embeddings, try_except, bind, lift, ret,
    logger.
  destruct (encode svc (t :: ts)) as [[|e es]|err];
    cbn [heap collection log clock].
  - do 2 eexists. repeat split.
  - unfold get_collection. cbn [heap collection log clock].
    destruct (coll_add svc (collection s) (e :: es) (t :: ts) _ _)
      as [c'|err]; unfold set_collection; cbn [heap collection log clock];
      do 2 eexists; repeat split; discriminate.
  - do 2 eexists. repeat split.
Qed.

(** [add_documents] never raises; it leaves the object store and the clock
    alone, and when it returns False the collection is the one it found. *)
Theorem add_documents_false_unchanged {coll} (svc : services coll)
    (docs : list document) (s : state coll) :
  exists (ok : bool) (s' : state coll),
    add_documents svc docs s = (Return ok, s')
    /\ heap s' = heap s /\ clock s' = clock s
    /\ (ok = false -> collection s' = collection s).
Proof. apply add_documents_frame. Qed.

(** With no non-blank chunk at all (no documents, documents without a
    chunk list, only blank chunks) [add_documents] returns False, warns,
    and calls neither the embedding model nor the collection. *)
Theorem add_documents_no_texts {coll} (svc : services coll)
    (docs : list document) (s : state coll) :
  nonblank_chunks docs = [] ->
  add_documents svc docs s
  = (Return false, logged s WARNING "No valid texts to add to vector store").
Proof.
  intros H. unfold add_documents, try_except. cbv zeta.
  rewrite (all_entries_texts docs 0), H. reflexivity.
Qed.

Lemma add_documents_no_texts_witness :
  add_documents memory_services blank_documents new_state
  = (Return false,
     logged new_state WARNING "No valid texts to add to vector store").
Proof.
  exact (add_documents_no_texts memory_services blank_documents new_state
           eq_refl).
Defined.

(** When the embedding model raises, [add_documents] returns False after
    two ERROR lines, and the collection is not touched. *)
Theorem add_documents_embedding_failure {coll} (svc : services coll)
    (docs : list document) (s : state coll) (e : exn) :
  nonblank_chunks docs <> [] ->
  encode svc (nonblank_chunks docs) = Raise e ->
  add_documents svc docs s
  = (Return false,
     logged (logged s ERROR ("Error creating embeddings: " ++ str_exn e))
       ERROR "Failed to create embeddings").
Proof.
  intros Hne Henc. unfold add_documents, try_except. cbv zeta.
  rewrite (all_entries_texts docs 0).
  destruct (nonblank_chunks docs) as [|t ts] eqn:Ht; [congruence|].
  unfold bind at 1. unfold create_embeddings, try_except, bind, lift, ret,
    logger.
  rewrite Henc. reflexivity.
Qed.

Lemma add_documents_embedding_failure_witness :
  add_documents embedding_down [titled_document] new_state
  = (Return false,
     logged (logged new_state ERROR
               "Error creating embeddings: model not loaded")
       ERROR "Failed to create embeddings").
Proof.
  exact (add_documents_embedding_failure embedding_down [titled_document]
           new_state (ExternalError "model not loaded")
           ltac:(discriminate) eq_refl).
Defined.

(** When the collection refuses the add, [add_documents] returns False,
    logs the error, and keeps the collection it had. *)
Theorem add_documents_add_failure {coll} (svc : services coll)
    (docs : list document) (s : state coll)
    (embeddings : list (list float)) (e : exn) :
  nonblank_chunks docs <> [] ->
  encode svc (nonblank_chunks docs) = Return embeddings ->
  embeddings <> [] ->
  coll_add svc (collection s) embeddings (nonblank_chunks docs)
    (all_metadatas docs) (all_ids docs) = Raise e ->
  add_documents svc docs s
  = (Return false,
     logged s ERROR ("Error adding documents to vector store: " ++ str_exn e)).
Proof.
  intros Hne Henc Hemb Hadd.
  unfold add_documents, try_except. cbv zeta.
  rewrite (all_entries_texts docs 0).
  fold (all_metadatas docs). fold (all_ids docs).
  destruct (nonblank_chunks docs) as [|t ts] eqn:Ht; [congruence|].
  unfold bind at 1. unfold create_embeddings, try_except, bind, lift, ret.
  rewrite Henc. destruct embeddings as [|em es]; [congruence|].
  unfold bind, get_collection, lift. cbn [heap collection log clock].
  rewrite Hadd. reflexivity.
Qed.

Lemma add_documents_add_failure_witness :
  add_documents add_refused [titled_document] new_state
  = (Return false,
     logged new_state ERROR
       "Error adding documents to vector store: disk full").
Proof.
  exact (add_documents_add_failure add_refused [titled_document] new_state
           [[1%float; 0%float]] (ExternalError "disk full")
           ltac:(discriminate) eq_refl ltac:(discriminate) eq_refl).
Defined.

(** *** The metadata of a chunk *)

(** A key of the document's own metadata keeps its value in the metadata
    of every chunk, also when it is url, title, chunk_index or
    total_chunks. *)
Theorem chunk_metadata_own_key_wins (doc : document) (j : Z)
    (own : gmap string mval) (key : string) (v : mval) :
  doc_metadata doc = Some own -> own !! key = Some v ->
  chunk_metadata doc j !! key = Some v.
Proof.
  intros Hown Hkey. unfold chunk_metadata. rewrite Hown. simpl.
  now apply lookup_union_Some_l.
Qed.

Lemma chunk_metadata_own_key_wins_witness :
  chunk_metadata titled_document 1 !! "title" = Some (MStr "About the PMO").
Proof.
  exact (chunk_metadata_own_key_wins titled_document 1 _ "title"
           (MStr "About the PMO") eq_refl eq_refl).
Defined.

(** For a document without metadata of its own, the metadata of chunk [j]
    has the url and the title of the document (the empty string when the
    key is missing), [j] as chunk_index, and as total_chunks the number of
    all chunks of the document, blank ones included. *)
Theorem chunk_metadata_defaults (doc : document) (j : Z) :
  doc_metadata doc = None ->
  chunk_metadata doc j !! "url" = Some (MStr (default "" (doc_url doc)))
  /\ chunk_metadata doc j !! "title"
     = Some (MStr (default "" (doc_title doc)))
  /\ chunk_metadata doc j !! "chunk_index" = Some (MInt j)
  /\ chunk_metadata doc j !! "total_chunks"
     = Some (MInt (Z.of_nat (length (chunks_of doc)))).
Proof.
  intros Hown. unfold chunk_metadata, chunks_of. rewrite Hown. simpl.
  rewrite (left_id_L ∅ (∪)). repeat split; now simplify_map_eq.
Qed.

Lemma chunk_metadata_defaults_witness :
  chunk_metadata sample_document 2 !! "url"
  = Some (MStr "https://www.pmc.gov.in/about")
  /\ chunk_metadata sample_document 2 !! "title" = Some (MStr "About")
  /\ chunk_metadata sample_document 2 !! "chunk_index" = Some (MInt 2)
  /\ chunk_metadata sample_document 2 !! "total_chunks" = Some (MInt 3).
Proof.
  exact (chunk_metadata_defaults sample_document 2 eq_refl).
Defined.

(** *** [load_and_index_data] *)

Lemma load_and_index_data_frame {coll} (svc : services coll)
    (data_file : string) (s : state coll) :
  exists (ok : bool) (s' : state coll),
    load_and_index_data svc data_file s = (Return ok, s')
    /\ heap s' = heap s /\ clock s' = clock s
    /\ (ok = false -> collection s' = collection s).
Proof.
  unfold load_and_index_data, try_except.
  unfold bind at 1. unfold get_collection at 1.
  unfold bind at 1. unfold lift at 1.
  destruct (coll_count svc (collection s)) as [count|e].
  2:{ unfold bind, logger, ret. simpl. do 2 eexists. repeat split. }
  destruct (count >? 0).
  { unfold bind, logger, ret. simpl. do 2 eexists. repeat split;
      try discriminate. }
  unfold bind at 1. unfold lift at 1.
  destruct (load_data svc data_file) as [[|doc docs]|e].
  - unfold bind, logger, ret. simpl. do 2 eexists. repeat split.
  - destruct (add_documents_frame svc (doc :: docs) s)
      as [ok [s' [Hadd [Hh [Hc Hcol]]]]].
    unfold bind at 1. rewrite Hadd.
    destruct ok; unfold bind, logger, ret; simpl;
      do 2 eexists; (split; [reflexivity|]); repeat split; auto;
      try discriminate.
  - unfold bind, logger, ret. simpl. do 2 eexists. repeat split.
Qed.

(** [load_and_index_data] never raises; it leaves the object store and the
    clock alone, and when it returns False the collection is unchanged. *)
Theorem load_and_index_data_false_unchanged {coll} (svc : services coll)
    (data_file : string) (s : state coll) :
  exists (ok : bool) (s' : state coll),
    load_and_index_data svc data_file s = (Return ok, s')
    /\ heap s' = heap s /\ clock s' = clock s
    /\ (ok = false -> collection s' = collection s).
Proof. apply load_and_index_data_frame. Qed.

(** When the collection cannot be counted, [load_and_index_data] returns
    False with one ERROR line: the data file is not read. *)
Theorem load_and_index_data_count_failure {coll} (svc : services coll)
    (data_file : string) (s : state coll) (e : exn) :
  coll_count svc (collection s) = Raise e ->
  load_and_index_data svc data_file s
  = (Return false,
     logged s ERROR ("Error loading and indexing data: " ++ str_exn e)).
Proof.
  intros Hc. unfold load_and_index_data, try_except, bind, get_collection,
    lift. simpl. rewrite Hc. reflexivity.
Qed.

Lemma load_and_index_data_count_failure_witness :
  load_and_index_data count_down "data/pmc_scraped_data.json" new_state
  = (Return false,
     logged new_state ERROR
       "Error loading and indexing data: database is locked").
Proof.
  exact (load_and_index_data_count_failure count_down
           "data/pmc_scraped_data.json" new_state
           (ExternalError "database is locked") eq_refl).
Defined.

(** On an empty collection, a data file that is missing or holds no
    document makes [load_and_index_data] return False with a warning that
    names the file; nothing is embedded or added. *)
Theorem load_and_index_data_no_data {coll} (svc : services coll)
    (data_file : string) (s : state coll) (count : Z) :
  coll_count svc (collection s) = Return count -> count <= 0 ->
  load_data svc data_file = Return [] ->
  load_and_index_data svc data_file s
  = (Return false, logged s WARNING ("No data found in " ++ data_file)).
Proof.
  intros Hc Hle Hl. unfold load_and_index_data, try_except, bind,
    get_collection, lift. simpl. rewrite Hc.
  destruct (Z.gtb_spec count 0) as [?|_]; [lia|]. rewrite Hl. reflexivity.
Qed.

Lemma load_and_index_data_no_data_witness :
  load_and_index_data no_data_file "data/pmc_scraped_data.json" new_state
  = (Return false,
     logged new_state WARNING "No data found in data/pmc_scraped_data.json").
Proof.
  apply (load_and_index_data_no_data no_data_file
           "data/pmc_scraped_data.json" new_state 0 eq_refl);
    [lia|reflexivity].
Defined.

(** On an empty collection, with documents in the data file, an embedding
    for their non-blank chunks and a collection that accepts them,
    [load_and_index_data] returns True, the collection is the one the add
    produced, and the log reports the chunks added and the documents
    indexed. *)
Theorem load_and_index_data_indexes {coll} (svc : services coll)
    (data_file : string) (s : state coll) (count : Z)
    (docs : list document) (embeddings : list (list float)) (c' : coll) :
  coll_count svc (collection s) = Return count -> count <= 0 ->
  load_data svc data_file = Return docs ->
  nonblank_chunks docs <> [] ->
  encode svc (nonblank_chunks docs) = Return embeddings ->
  embeddings <> [] ->
  coll_add svc (collection s) embeddings (nonblank_chunks docs)
    (all_metadatas docs) (all_ids docs) = Return c' ->
  load_and_index_data svc data_file s
  = (Return true,
     logged
       (logged (with_collection s c') INFO
          ("Added " ++ str_int (Z.of_nat (length (nonblank_chunks docs)))
           ++ " document chunks to vector store"))
       INFO ("Successfully indexed " ++ str_int (Z.of_nat (length docs))
             ++ " documents")).
Proof.
  intros Hc Hle Hl Hne Henc Hemb Hadd.
  pose proof (add_documents_indexes_nonblank_eq svc docs s embeddings c'
                Hne Henc Hemb Hadd) as Ha.
  unfold load_and_index_data, try_except.
  unfold bind at 1. unfold get_collection at 1.
  unfold bind at 1. unfold lift at 1. rewrite Hc.
  destruct (Z.gtb_spec count 0) as [?|_]; [lia|].
  unfold bind at 1. unfold lift at 1. rewrite Hl.
  destruct docs as [|doc docs]; [now elim Hne|].
  unfold bind at 1. rewrite Ha. reflexivity.
Qed.

Lemma load_and_index_data_indexes_witness :
  load_and_index_data memory_services "data/pmc_scraped_data.json" new_state
  = (Return true,
     logged
       (logged (with_collection new_state
                  (zip_entries [[1%float; 0%float]; [1%float; 0%float]]
                     (nonblank_chunks [sample_document])
                     (all_metadatas [sample_document])
                     (all_ids [sample_document])))
          INFO "Added 2 document chunks to vector store")
       INFO "Successfully indexed 1 documents").
Proof.
  apply (load_and_index_data_indexes memory_services
           "data/pmc_scraped_data.json" new_state 0 [sample_document]
           [[1%float; 0%float]; [1%float; 0%float]]);
    try reflexivity; discriminate.
Defined.

(** *** [get_relevant_context] *)

Lemma estimated_tokens_nonneg (r : search_result) : 0 <= estimated_tokens r.
Proof. unfold estimated_tokens, len. apply Z.div_pos; lia. Qed.

Lemma sum_estimates_nonneg (results : list search_result) :
  0 <= sum (map estimated_tokens results).
Proof.
  induction results as [|r rest IH]; simpl; [lia|].
  pose proof (estimated_tokens_nonneg r). lia.
Qed.

Lemma context_loop_all (results : list search_result) (max_tokens : Z) :
  forall (parts : list string) (current : Z),
    current + sum (map estimated_tokens results) <= max_tokens ->
    context_loop results max_tokens parts current
    = (parts ++ map block results,
       current + sum (map estimated_tokens results)).
Proof.
  induction results as [|r rest IH]; intros parts current H; simpl.
  - now rewrite app_nil_r, Z.add_0_r.
  - simpl in H. pose proof (sum_estimates_nonneg rest).
    fold (estimated_tokens r).
    destruct (Z.gtb_spec (current + estimated_tokens r) max_tokens)
      as [?|_]; [lia|].
    rewrite IH by lia. rewrite <- app_assoc. simpl. f_equal. lia.
Qed.

(** When the estimates of all the results of the search sum to at most
    the budget, the context holds the labelled block of every result, in
    order, joined by blank lines. *)
Theorem get_relevant_context_all_fit {coll} (svc : services coll)
    (query : string) (max_tokens : Z) (s : state coll)
    (results : list search_result) :
  fst (search svc query 10 s) = Return results ->
  sum (map estimated_tokens results) <= max_tokens ->
  fst (get_relevant_context svc query max_tokens s)
  = Return (join (nl ++ nl) (map block results)).
Proof.
  intros Hs Hfit.
  destruct (search_returns svc query 10 s) as [results' [lg Hs']].
  rewrite Hs' in Hs. simpl in Hs. injection Hs as ->.
  unfold get_relevant_context, try_except, bind. rewrite Hs'.
  destruct results as [|r rest]; [reflexivity|].
  unfold assemble. rewrite context_loop_all by (simpl in *; lia).
  reflexivity.
Qed.

Lemma get_relevant_context_all_fit_witness :
  fst (get_relevant_context memory_services "office" 2000
         (Build_state [OList []] two_entries [] 0%nat))
  = Return ("Source: Unknown" ++ nl ++ "first" ++ nl ++ nl
            ++ "Source: Unknown" ++ nl ++ "second")%string.
Proof.
  apply (get_relevant_context_all_fit memory_services "office" 2000
           (Build_state [OList []] two_entries [] 0%nat)
           (format_loop 0 ["first"; "second"] [∅; ∅]
              [0.25%float; 0.25%float]) eq_refl).
  vm_compute. discriminate.
Defined.

(** When the embedding step or the index query raises,
    [get_relevant_context] returns the empty string: the failure is in the
    log, written there by [search], and the caller goes on without
    context. *)
Theorem get_relevant_context_retrieval_failure {coll} (svc : services coll)
    (query : string) (max_tokens : Z) (s : state coll) (e : exn) :
  encode svc [query] = Raise e
  \/ (exists embedding, encode svc [query] = Return embedding
        /\ coll_query svc (collection s) embedding 10 = Raise e) ->
  get_relevant_context svc query max_tokens s
  = (Return "", logged s ERROR (search_error e)).
Proof.
  intros H. unfold get_relevant_context, try_except, bind.
  now rewrite (search_failure svc query 10 s e H).
Qed.

Lemma get_relevant_context_retrieval_failure_witness :
  get_relevant_context embedding_down "What is the PMO?" 2000 new_state
  = (Return "", logged new_state ERROR
                  "Error searching vector store: model not loaded").
Proof.
  exact (get_relevant_context_retrieval_failure embedding_down
           "What is the PMO?" 2000 new_state
           (ExternalError "model not loaded") (or_introl eq_refl)).
Defined.

(** When the estimate of the first result alone is above the budget, the
    context is the empty string, whatever the results after it cost. *)
Theorem get_relevant_context_first_too_large {coll} (svc : services coll)
    (query : string) (max_tokens : Z) (s : state coll)
    (r : search_result) (rest : list search_result) :
  fst (search svc query 10 s) = Return (r :: rest) ->
  estimated_tokens r > max_tokens ->
  fst (get_relevant_context svc query max_tokens s) = Return "".
Proof.
  intros Hs Hbig.
  destruct (search_returns svc query 10 s) as [results' [lg Hs']].
  rewrite Hs' in Hs. simpl in Hs. injection Hs as ->.
  unfold get_relevant_context, try_except, bind. rewrite Hs'.
  unfold assemble. cbn [context_loop].
  change (len (content r) / 4) with (estimated_tokens r).
  destruct (Z.gtb_spec (0 + estimated_tokens r) max_tokens) as [_|?]; [|lia].
  reflexivity.
Qed.

Lemma get_relevant_context_first_too_large_witness :
  fst (get_relevant_context memory_services "office" 0
         (Build_state [OList []] one_entry [] 0%nat)) = Return "".
Proof.
  apply (get_relevant_context_first_too_large memory_services "office" 0
           (Build_state [OList []] one_entry [] 0%nat) short_result []
           eq_refl).
  reflexivity.
Defined.

End VectorStoreMore.

(** ** More facts about the chatbot *)

Module ChatbotMore.
Import Utils VectorStore Chatbot Spec VectorStoreFacts ChatbotFacts.
Import VectorStoreMore.
Local Open Scope Z_scope.

Section Run.
Context {coll : Type}.

(** [get_response] up to the call of the completion service, with what is
    known of the context. *)
Lemma get_response_prefix_context {B} (svc : services coll)
    (self : PMCChatbot) (user_message : string) (use_context : bool)
    (s : state coll) (items : list nat) (ts : list turn)
    (k : string -> list message -> M coll B) :
  holds self s items ts ->
  let u := user_turn user_message (now svc (clock s)) in
  exists context s3,
    bind (timestamp_now svc) (fun t =>
    bind (alloc (ODict {| role := "user"; t_content := user_message;
                          timestamp := t |})) (fun d =>
    bind (list_append (conversation_history self) d) (fun _ =>
    bind (if use_context then get_relevant_context svc user_message 2000
          else ret "") (fun context =>
    bind (build_messages self context) (fun messages =>
    k context messages))))) s
    = k context
        (head_messages self context
         ++ forwarded (drop (length (ts ++ [u]) - 10) (ts ++ [u]))) s3
    /\ holds self s3 (items ++ [length (heap s)]) (ts ++ [u])
    /\ clock s3 = S (clock s)
    /\ collection s3 = collection s
    /\ (if use_context
        then exists s2, collection s2 = collection s
               /\ fst (get_relevant_context svc user_message 2000 s2)
                  = Return context
        else context = "").
Proof.
  intros H u. pose proof (holds_lookup _ _ _ _ H) as Hl.
  unfold bind at 1. unfold timestamp_now at 1.
  unfold bind at 1. unfold alloc at 1. cbn [heap collection log clock].
  set (s1 := Build_state (heap s ++ [ODict _]) _ _ _).
  rewrite (bind_Return _ _ s1 _ tt
             (list_append_ok _ _ items s1 (lookup_app_l_Some _ _ _ _ Hl))).
  cbn [heap collection log clock].
  set (s2 := Build_state (<[_ := _]> _) _ _ _).
  assert (H2 : holds self s2 (items ++ [length (heap s)]) (ts ++ [u]))
    by (apply (holds_record self s s2 u items ts eq_refl H)).
  assert (Hctx : exists context lg,
    (if use_context then get_relevant_context svc user_message 2000
     else ret "") s2
    = (Return context, Build_state (heap s2) (collection s2) lg (clock s2))
    /\ (if use_context
        then exists s2, collection s2 = collection s
               /\ fst (get_relevant_context svc user_message 2000 s2)
                  = Return context
        else context = "")).
  { destruct use_context.
    - destruct (get_relevant_context_frame svc user_message 2000 s2)
        as [context [lg Hc]].
      exists context, lg. split; [exact Hc|]. exists s2.
      split; [reflexivity|]. now rewrite Hc.
    - exists "", (log s2). split; reflexivity. }
  destruct Hctx as [context [lg [Hctx Hwhat]]].
  rewrite (bind_Return _ _ _ _ _ Hctx).
  set (s2' := Build_state (heap s2) _ lg _).
  assert (H2' : holds self s2' (items ++ [length (heap s)]) (ts ++ [u]))
    by (apply (holds_heap self s2 s2' _ _ eq_refl H2)).
  rewrite (bind_Return _ _ _ _ _ (build_messages_ok self context s2' _ _ H2')).
  exists context. eexists. split; [reflexivity|].
  split; [eapply holds_alloc; [|exact H2']; reflexivity|].
  split; [reflexivity|]. split; [reflexivity|exact Hwhat].
Qed.

(** The window over the history with the new user turn at its end is the
    last nine turns before it and the new turn. *)
Lemma window_with_user_turn (ts : list turn) (u : turn) :
  drop (length (ts ++ [u]) - 10) (ts ++ [u]) = drop (length ts - 9) ts ++ [u].
Proof.
  rewrite length_app. simpl.
  replace (length ts + 1 - 10)%nat with (length ts - 9)%nat by lia.
  apply drop_app_le. lia.
Qed.

Lemma forwarded_app (a b : list turn) :
  forwarded (a ++ b) = forwarded a ++ forwarded b.
Proof. unfold forwarded. apply flat_map_app. Qed.

(** [get_response] as a whole: the prompt it sends, and for each thing the
    completion service may do with it, the response and the history. *)
Lemma get_response_run (svc : services coll) (cfg : config)
    (self : PMCChatbot) (user_message : string) (use_context : bool)
    (s : state coll) (ts : list turn) :
  history self s = Some ts ->
  exists context s',
    let u := user_turn user_message (now svc (clock s)) in
    let outcome :=
      complete svc (model_name cfg) (prompt self context ts user_message)
        (temperature cfg) (max_tokens cfg) in
    get_response svc cfg self user_message use_context s
    = (Return (answer_of cfg context outcome (now svc (S (clock s)))
                 (now svc (S (S (clock s))))), s')
    /\ history self s'
       = Some (turns_after ts u outcome (now svc (S (clock s))))
    /\ collection s' = collection s
    /\ (if use_context
        then exists s2, collection s2 = collection s
               /\ fst (get_relevant_context svc user_message 2000 s2)
                  = Return context
        else context = "").
Proof.
  intros Hh. apply holds_history in Hh as [items Hh].
  unfold get_response, try_except.
  edestruct (get_response_prefix_context (B := response) svc self user_message
               use_context s items ts)
    as [context [s3 [Heq [H3 [Hck [Hcol Hwhat]]]]]]; [exact Hh|].
  rewrite Heq. clear Heq. exists context.
  rewrite window_with_user_turn, forwarded_app.
  change (forwarded [user_turn user_message (now svc (clock s))])
    with [{| m_role := "user"; m_content := user_message |}].
  fold (prompt self context ts user_message).
  unfold bind at 1. unfold lift at 1.
  destruct (complete svc (model_name cfg) (prompt self context ts user_message)
              (temperature cfg) (max_tokens cfg)) as [[|c more]|e].
  - unfold bind, lift, logger, timestamp_now, ret.
    cbn [first heap collection log clock]. rewrite Hck.
    eexists. split; [reflexivity|]. cbn [collection]. split; [|auto].
    apply holds_history. eexists. eapply holds_heap; [|exact H3]. reflexivity.
  - unfold bind at 1. unfold lift at 1. cbn [first].
    unfold bind at 1. unfold timestamp_now at 1.
    unfold bind at 1. unfold alloc at 1. cbn [heap collection log clock].
    rewrite Hck.
    set (s4 := Build_state (heap s3 ++ [ODict _]) _ _ _).
    pose proof (holds_lookup _ _ _ _ H3) as Hl.
    rewrite (bind_Return _ _ s4 _ tt
               (list_append_ok _ _ _ s4 (lookup_app_l_Some _ _ _ _ Hl))).
    cbn [heap collection log clock].
    unfold bind, timestamp_now, logger, ret. cbn [heap collection log clock].
    eexists. split; [reflexivity|]. cbn [collection]. split; [|auto].
    assert (Happ : forall x y : turn, ts ++ [x; y] = (ts ++ [x]) ++ [y])
      by (intros; now rewrite <- app_assoc).
    apply holds_history. eexists. cbn [turns_after]. rewrite Happ.
    eapply holds_record; [|exact H3]. reflexivity.
  - unfold bind, logger, timestamp_now, ret.
    cbn [heap collection log clock]. rewrite Hck.
    eexists. split; [reflexivity|]. cbn [collection]. split; [|auto].
    apply holds_history. eexists. eapply holds_heap; [|exact H3]. reflexivity.
Qed.

(** What [get_relevant_context] returns depends on the collection only,
    not on the heap, the log or the clock. *)
Lemma get_relevant_context_by_collection (svc : services coll)
    (query : string) (max_tokens : Z) (s s' : state coll) :
  collection s = collection s' ->
  fst (get_relevant_context svc query max_tokens s)
  = fst (get_relevant_context svc query max_tokens s').
Proof.
  intros Hc.
  unfold get_relevant_context, search, try_except, bind, lift,
    get_collection, logger, ret.
  rewrite Hc.
  destruct (encode svc [query]) as [emb|e]; [|reflexivity].
  destruct (coll_query svc (collection s') emb 10) as [answer|e];
    [|reflexivity].
  destruct (format_results answer) as [[|r results]|e]; [reflexivity| |
    reflexivity].
  destruct (assemble (r :: results) max_tokens). reflexivity.
Qed.

(** [get_response] in terms of the one call it makes of the completion
    service: the prompt is built from the context retrieved on the
    collection of [s] and the history of [s]. *)
Lemma get_response_on_prompt (svc : services coll) (cfg : config)
    (self : PMCChatbot) (user_message : string) (use_context : bool)
    (s : state coll) (ts : list turn) :
  history self s = Some ts ->
  let context := retrieved_context svc user_message use_context s in
  let u := user_turn user_message (now svc (clock s)) in
  let outcome :=
    complete svc (model_name cfg) (prompt self context ts user_message)
      (temperature cfg) (max_tokens cfg) in
  exists s',
    get_response svc cfg self user_message use_context s
    = (Return (answer_of cfg context outcome (now svc (S (clock s)))
                 (now svc (S (S (clock s))))), s')
    /\ history self s'
       = Some (turns_after ts u outcome (now svc (S (clock s)))).
Proof.
  intros Hh.
  destruct (get_response_run svc cfg self user_message use_context s ts Hh)
    as [context [s' [Hrun [Hhist [_ Hwhat]]]]].
  assert (Hctx : retrieved_context svc user_message use_context s = context).
  { unfold retrieved_context. destruct use_context; [|now symmetry].
    destruct Hwhat as [s2 [Hc Hr]].
    rewrite <- (get_relevant_context_by_collection svc user_message 2000
                  s2 s Hc).
    now rewrite Hr. }
  cbv zeta. rewrite Hctx. exists s'. split; [exact Hrun|exact Hhist].
Qed.

End Run.

(** [get_response] never raises: whatever the collaborators do, it returns
    a response, and the history afterwards is the history before, the user
    turn, and after it the assistant turn exactly when the response is the
    normal one. *)
Theorem get_response_always_responds {coll} (svc : services coll)
    (cfg : config) (self : PMCChatbot) (user_message : string)
    (use_context : bool) (s : state coll) (ts : list turn) :
  history self s = Some ts ->
  exists (resp : response) (s' : state coll) (more : list turn),
    get_response svc cfg self user_message use_context s = (Return resp, s')
    /\ history self s'
       = Some (ts ++ user_turn user_message (now svc (clock s)) :: more)
    /\ more = match resp with
              | ResponseData c _ _ _ _ =>
                  [assistant_turn (or_empty c) (now svc (S (clock s)))]
              | ErrorResponse _ _ _ => []
              end.
Proof.
  intros Hh.
  destruct (get_response_run svc cfg self user_message use_context s ts Hh)
    as [context [s' [Hrun [Hhist _]]]].
  cbv zeta in Hrun, Hhist.
  destruct (complete svc (model_name cfg)
              (prompt self context ts user_message)
              (temperature cfg) (max_tokens cfg)) as [[|c more]|e];
    cbn [answer_of turns_after] in Hrun, Hhist;
    do 3 eexists; (split; [exact Hrun|]); (split; [exact Hhist|reflexivity]).
Qed.

Lemma get_response_always_responds_witness :
  exists (resp : response) (s' : state (list entry)) (more : list turn),
    get_response completion_no_choice sample_config new_chatbot
      "What is the PMO?" true new_state = (Return resp, s')
    /\ history new_chatbot s'
       = Some ([] ++ user_turn "What is the PMO?" "2024-01-01T00:00:00"
               :: more)
    /\ more = match resp with
              | ResponseData c _ _ _ _ =>
                  [assistant_turn (or_empty c) "2024-01-01T00:00:01"]
              | ErrorResponse _ _ _ => []
              end.
Proof.
  exact (get_response_always_responds completion_no_choice sample_config
           new_chatbot "What is the PMO?" true new_state [] eq_refl).
Defined.

(** Without retrieval, the prompt sent to the completion service is the
    system prompt, the user and assistant turns among the last nine turns
    of the history, and the message of the user as the last message; what
    the service answers to this prompt is the response, and its text is
    the assistant turn recorded. *)
Theorem get_response_prompt {coll} (svc : services coll) (cfg : config)
    (self : PMCChatbot) (user_message : string) (s : state coll)
    (ts : list turn) (c : option string) (more : list (option string)) :
  history self s = Some ts ->
  complete svc (model_name cfg)
    ({| m_role := "system"; m_content := system_prompt self |}
     :: forwarded (drop (length ts - 9) ts)
     ++ [{| m_role := "user"; m_content := user_message |}])
    (temperature cfg) (max_tokens cfg) = Return (c :: more) ->
  exists s',
    get_response svc cfg self user_message false s
    = (Return (ResponseData c false 0 (now svc (S (S (clock s))))
                 (model_name cfg)), s')
    /\ history self s'
       = Some (ts ++ [user_turn user_message (now svc (clock s));
                      assistant_turn (or_empty c) (now svc (S (clock s)))]).
Proof.
  intros Hh Hc.
  destruct (get_response_run svc cfg self user_message false s ts Hh)
    as [context [s' [Hrun [Hhist [_ ->]]]]].
  cbv zeta in Hrun, Hhist.
  change (prompt self "" ts user_message)
    with ({| m_role := "system"; m_content := system_prompt self |}
          :: forwarded (drop (length ts - 9) ts)
          ++ [{| m_role := "user"; m_content := user_message |}])
    in Hrun, Hhist.
  rewrite Hc in Hrun, Hhist. exists s'. split; [exact Hrun|exact Hhist].
Qed.

Lemma get_response_prompt_witness :
  exists s',
    get_response completion_picky sample_config new_chatbot
      "What is the PMO?" false new_state
    = (Return (ResponseData (Some "An office.") false 0
                 "2024-01-01T00:00:02" "gpt-3.5-turbo"), s')
    /\ history new_chatbot s'
       = Some [user_turn "What is the PMO?" "2024-01-01T00:00:00";
               assistant_turn "An office." "2024-01-01T00:00:01"].
Proof.
  exact (get_response_prompt completion_picky sample_config new_chatbot
           "What is the PMO?" new_state [] (Some "An office.") []
           eq_refl eq_refl).
Defined.

(** C1 as amended: when the completion call of the request raises, that
    is the call on the prompt built from the retrieved context, the
    history and the message, [get_response] returns the error response,
    and the stored history is the one before the call followed by the user
    turn of this request; no assistant turn is added. *)
Theorem get_response_failure_keeps_user_turn {coll} (svc : services coll)
    (cfg : config) (self : PMCChatbot) (user_message : string)
    (use_context : bool) (s : state coll) (ts : list turn) (e : exn) :
  history self s = Some ts ->
  complete svc (model_name cfg)
    (prompt self (retrieved_context svc user_message use_context s) ts
       user_message)
    (temperature cfg) (max_tokens cfg) = Raise e ->
  exists s',
    get_response svc cfg self user_message use_context s
    = (Return (ErrorResponse apology (str_exn e) (now svc (S (clock s)))), s')
    /\ history self s'
       = Some (ts ++ [user_turn user_message (now svc (clock s))]).
Proof.
  intros Hh Hfail.
  destruct (get_response_on_prompt svc cfg self user_message use_context s ts
              Hh) as [s' [Hrun Hhist]].
  rewrite Hfail in Hrun, Hhist. exists s'. split; [exact Hrun|exact Hhist].
Qed.

Lemma get_response_failure_keeps_user_turn_witness :
  complete (completion_on_question (Raise (ExternalError "Connection error.")))
    "gpt-3.5-turbo" [] 0.5 1000
  = Return [Some "Please ask about the PMO."]
  /\ exists s',
       get_response
         (completion_on_question (Raise (ExternalError "Connection error.")))
         sample_config new_chatbot "What is the PMO?" true new_state
       = (Return (ErrorResponse apology "Connection error."
                    "2024-01-01T00:00:01"), s')
       /\ history new_chatbot s'
          = Some [user_turn "What is the PMO?" "2024-01-01T00:00:00"].
Proof.
  split; [reflexivity|].
  exact (get_response_failure_keeps_user_turn
           (completion_on_question (Raise (ExternalError "Connection error.")))
           sample_config new_chatbot "What is the PMO?" true new_state []
           (ExternalError "Connection error.") eq_refl eq_refl).
Defined.

(** C9: when the completion service answers the prompt of the request with
    a null or empty content, [get_response] returns the normal response
    with that content, and the history gains the user turn and an
    assistant turn whose content is the empty string. *)
Theorem get_response_records_empty_completion {coll} (svc : services coll)
    (cfg : config) (self : PMCChatbot) (user_message : string)
    (use_context : bool) (s : state coll) (ts : list turn)
    (c : option string) (more : list (option string)) :
  history self s = Some ts ->
  complete svc (model_name cfg)
    (prompt self (retrieved_context svc user_message use_context s) ts
       user_message)
    (temperature cfg) (max_tokens cfg) = Return (c :: more) ->
  c = None \/ c = Some "" ->
  exists s',
    get_response svc cfg self user_message use_context s
    = (Return (ResponseData c
                 (negb (String.eqb
                          (retrieved_context svc user_message use_context s)
                          ""))
                 (len (retrieved_context svc user_message use_context s))
                 (now svc (S (S (clock s)))) (model_name cfg)), s')
    /\ history self s'
       = Some (ts ++ [user_turn user_message (now svc (clock s));
                      assistant_turn "" (now svc (S (clock s)))]).
Proof.
  intros Hh Hc Hempty.
  assert (Hor : or_empty c = "") by (destruct Hempty as [->| ->]; reflexivity).
  destruct (get_response_on_prompt svc cfg self user_message use_context s ts
              Hh) as [s' [Hrun Hhist]].
  rewrite Hc in Hrun, Hhist. cbn [answer_of turns_after] in Hrun, Hhist.
  rewrite Hor in Hhist. exists s'. split; [exact Hrun|exact Hhist].
Qed.

Lemma get_response_records_empty_completion_witness :
  (exists s',
     get_response (completion_on_question (Return [None])) sample_config
       new_chatbot "What is the PMO?" true new_state
     = (Return (ResponseData None false 0 "2024-01-01T00:00:02"
                  "gpt-3.5-turbo"), s')
     /\ history new_chatbot s'
        = Some [user_turn "What is the PMO?" "2024-01-01T00:00:00";
                assistant_turn "" "2024-01-01T00:00:01"])
  /\ (exists s',
        get_response (completion_on_question (Return [Some ""])) sample_config
          new_chatbot "What is the PMO?" false new_state
        = (Return (ResponseData (Some "") false 0 "2024-01-01T00:00:02"
                     "gpt-3.5-turbo"), s')
        /\ history new_chatbot s'
           = Some [user_turn "What is the PMO?" "2024-01-01T00:00:00";
                   assistant_turn "" "2024-01-01T00:00:01"]).
Proof.
  split.
  - exact (get_response_records_empty_completion
             (completion_on_question (Return [None])) sample_config
             new_chatbot "What is the PMO?" true new_state [] None []
             eq_refl eq_refl (or_introl eq_refl)).
  - exact (get_response_records_empty_completion
             (completion_on_question (Return [Some ""])) sample_config
             new_chatbot "What is the PMO?" false new_state [] (Some "") []
             eq_refl eq_refl (or_intror eq_refl)).
Defined.

(** When the completion service answers the prompt of the request with no
    choice at all, [get_response] returns the error response with the text
    of the IndexError, and the history keeps the user turn only. *)
Theorem get_response_no_choice {coll} (svc : services coll) (cfg : config)
    (self : PMCChatbot) (user_message : string) (use_context : bool)
    (s : state coll) (ts : list turn) :
  history self s = Some ts ->
  complete svc (model_name cfg)
    (prompt self (retrieved_context svc user_message use_context s) ts
       user_message)
    (temperature cfg) (max_tokens cfg) = Return [] ->
  exists s',
    get_response svc cfg self user_message use_context s
    = (Return (ErrorResponse apology "list index out of range"
                 (now svc (S (clock s)))), s')
    /\ history self s'
       = Some (ts ++ [user_turn user_message (now svc (clock s))]).
Proof.
  intros Hh Hc.
  destruct (get_response_on_prompt svc cfg self user_message use_context s ts
              Hh) as [s' [Hrun Hhist]].
  rewrite Hc in Hrun, Hhist. exists s'. split; [exact Hrun|exact Hhist].
Qed.

Lemma get_response_no_choice_witness :
  exists s',
    get_response (completion_on_question (Return [])) sample_config
      new_chatbot "What is the PMO?" true new_state
    = (Return (ErrorResponse apology "list index out of range"
                 "2024-01-01T00:00:01"), s')
    /\ history new_chatbot s'
       = Some [user_turn "What is the PMO?" "2024-01-01T00:00:00"].
Proof.
  exact (get_response_no_choice (completion_on_question (Return []))
           sample_config new_chatbot "What is the PMO?" true new_state []
           eq_refl eq_refl).
Defined.

(** When retrieval is asked for and the embedding step raises, the request
    still gets its normal response: the prompt carries no context, and the
    response says that no context was used. *)
Theorem get_response_without_retrieval {coll} (svc : services coll)
    (cfg : config) (self : PMCChatbot) (user_message : string)
    (s : state coll) (ts : list turn) (e : exn)
    (c : option string) (more : list (option string)) :
  history self s = Some ts ->
  encode svc [user_message] = Raise e ->
  complete svc (model_name cfg) (prompt self "" ts user_message)
    (temperature cfg) (max_tokens cfg) = Return (c :: more) ->
  exists s',
    get_response svc cfg self user_message true s
    = (Return (ResponseData c false 0 (now svc (S (S (clock s))))
                 (model_name cfg)), s')
    /\ history self s'
       = Some (ts ++ [user_turn user_message (now svc (clock s));
                      assistant_turn (or_empty c) (now svc (S (clock s)))]).
Proof.
  intros Hh Henc Hc.
  destruct (get_response_run svc cfg self user_message true s ts Hh)
    as [context [s' [Hrun [Hhist [_ [s2 [_ Hctx]]]]]]].
  assert (context = "") as ->.
  { unfold get_relevant_context, try_except, bind in Hctx.
    rewrite (search_failure svc user_message 10 s2 e (or_introl Henc))
      in Hctx.
    simpl in Hctx. now injection Hctx. }
  cbv zeta in Hrun, Hhist. rewrite Hc in Hrun, Hhist.
  exists s'. split; [exact Hrun|exact Hhist].
Qed.

Lemma get_response_without_retrieval_witness :
  exists s',
    get_response embedding_down sample_config new_chatbot
      "What is the PMO?" true new_state
    = (Return (ResponseData (Some "It is the Prime Minister's office.")
                 false 0 "2024-01-01T00:00:02" "gpt-3.5-turbo"), s')
    /\ history new_chatbot s'
       = Some [user_turn "What is the PMO?" "2024-01-01T00:00:00";
               assistant_turn "It is the Prime Minister's office."
                 "2024-01-01T00:00:01"].
Proof.
  exact (get_response_without_retrieval embedding_down sample_config
           new_chatbot "What is the PMO?" new_state []
           (ExternalError "model not loaded")
           (Some "It is the Prime Minister's office.") []
           eq_refl eq_refl eq_refl).
Defined.

(** The [try] of [search_documents] never sees an exception:
    [search_documents] does exactly what [search] does. *)
Theorem search_documents_is_search {coll} (svc : services coll)
    (query : string) (n_results : Z) (s : state coll) :
  search_documents svc query n_results s = search svc query n_results s.
Proof.
  destruct (search_returns svc query n_results s) as [results [lg Hs]].
  unfold search_documents, try_except, bind. now rewrite Hs.
Qed.

(** Clearing the history empties the stored list in place; a list that
    [get_conversation_history] returned before still holds all the turns. *)
Theorem clear_conversation_history_keeps_copies {coll} (self : PMCChatbot)
    (s : state coll) (ts : list turn) :
  history self s = Some ts ->
  exists (copy : nat) (s1 s2 : state coll),
    get_conversation_history self s = (Return copy, s1)
    /\ clear_conversation_history self s1 = (Return tt, s2)
    /\ history self s2 = Some []
    /\ turns_at copy s2 = Some ts.
Proof.
  intros Hh. apply holds_history in Hh as [items Hh].
  pose proof (holds_lookup _ _ _ _ Hh) as Hl. destruct Hh as [_ Ht].
  pose proof (lookup_lt_Some _ _ _ Hl) as Hlt.
  pose proof (lookup_app_l_Some _ [OList items] _ _ Hl) as Hl1.
  exists (length (heap s)). do 2 eexists.
  split.
  { unfold get_conversation_history, bind, read_list. rewrite Hl.
    reflexivity. }
  split.
  { unfold clear_conversation_history, bind, write_list, logger.
    cbn [heap collection log clock]. rewrite Hl1. reflexivity. }
  split.
  - unfold history, history_items. cbn [heap].
    rewrite list_lookup_insert_eq by (rewrite length_app; simpl; lia).
    reflexivity.
  - unfold turns_at. cbn [heap].
    rewrite list_lookup_insert_ne by lia. rewrite alloc_lookup.
    apply (read_turns_insert_list _ _ items _ _ Hl1).
    now apply read_turns_app_heap.
Qed.

Lemma clear_conversation_history_keeps_copies_witness :
  exists (copy : nat) (s1 s2 : state (list entry)),
    get_conversation_history new_chatbot long_state = (Return copy, s1)
    /\ clear_conversation_history new_chatbot s1 = (Return tt, s2)
    /\ history new_chatbot s2 = Some []
    /\ turns_at copy s2 = Some twelve_turns.
Proof.
  exact (clear_conversation_history_keeps_copies new_chatbot long_state
           twelve_turns eq_refl).
Defined.

(** When the collection cannot be counted, [get_system_info] still
    returns the settings and the conversation length; the statistics of
    the vector store are the empty dict, and the error is in the log. *)
Theorem get_system_info_without_stats {coll} (svc : services coll)
    (cfg : config) (self : PMCChatbot) (s : state coll) (ts : list turn)
    (e : exn) :
  history self s = Some ts ->
  coll_count svc (collection s) = Raise e ->
  get_system_info svc cfg self s
  = (Return (Some {| si_model_name := model_name cfg;
                     si_temperature := temperature cfg;
                     si_max_tokens := max_tokens cfg;
                     vector_store_stats := None;
                     conversation_length := Z.of_nat (length ts) |}),
     logged s ERROR ("Error getting collection stats: " ++ str_exn e)).
Proof.
  intros Hh Hc. apply holds_history in Hh as [items Hh].
  pose proof (holds_lookup _ _ _ _ Hh) as Hl. destruct Hh as [_ Ht].
  unfold get_system_info, try_except, bind, get_collection_stats, try_except,
    bind, get_collection, lift, logger, ret, read_list.
  cbn [heap collection log clock]. rewrite Hc. cbn [heap]. rewrite Hl.
  now rewrite (read_turns_length _ _ _ Ht).
Qed.

Lemma get_system_info_without_stats_witness :
  get_system_info count_down sample_config new_chatbot long_state
  = (Return (Some {| si_model_name := "gpt-3.5-turbo";
                     si_temperature := 0.5%float;
                     si_max_tokens := 1000;
                     vector_store_stats := None;
                     conversation_length := 12 |}),
     logged long_state ERROR
       "Error getting collection stats: database is locked").
Proof.
  exact (get_system_info_without_stats count_down sample_config new_chatbot
           long_state twelve_turns (ExternalError "database is locked")
           eq_refl eq_refl).
Defined.

(** [initialize_data] never raises: it returns what [load_and_index_data]
    returns for the default data file and leaves the collection that call
    left, with one more log line that tells success from limited data. *)
Theorem initialize_data_result {coll} (svc : services coll)
    (self : PMCChatbot) (s : state coll) :
  exists (ok : bool) (s1 : state coll),
    load_and_index_data svc "data/pmc_scraped_data.json"
      (logged s INFO "Initializing chatbot data...") = (Return ok, s1)
    /\ initialize_data svc self s
       = (Return ok,
          if ok then logged s1 INFO "Chatbot initialized successfully"
          else logged s1 WARNING "Chatbot initialized with limited data").
Proof.
  destruct (load_and_index_data_frame svc "data/pmc_scraped_data.json"
              (logged s INFO "Initializing chatbot data..."))
    as [ok [s1 [Hl _]]].
  exists ok, s1. split; [exact Hl|].
  unfold initialize_data, try_except.
  unfold bind at 1. unfold logger at 1. fold (logged s INFO "Initializing chatbot data...").
  unfold bind at 1. rewrite Hl. destruct ok; reflexivity.
Qed.

End ChatbotMore.

(** ** Facts about the scraper *)

Module ScraperFacts.
Import Utils Scraper Spec UtilsFacts UtilsMore.
Local Open Scope Z_scope.

Section Web.
Context {soup : Type} (w : web soup) (request_delay : float)
  (base_url : string) (max_pages : Z).

(** With the sizes that [scrape_page] uses, chunking ends. *)
Lemma chunk_text_default_returns (content : string) :
  exists chunks,
    chunk_text (S (String.length content)) content 1000 200
    = Some (Return chunks).
Proof.
  unfold chunk_text. destruct (len content <=? 1000); [eauto|].
  apply chunk_loop_terminates; [reflexivity|lia|unfold len; lia].
Qed.

Lemma get_page_content_frame (url : string) (st : scraper) :
  visited_urls (snd (get_page_content w request_delay url st))
  = visited_urls st
  /\ scraped_data (snd (get_page_content w request_delay url st))
     = scraped_data st.
Proof.
  unfold get_page_content. simpl.
  destruct (get w (ticks st) url); simpl; auto.
  destruct (sleep w request_delay); simpl; auto.
Qed.

(** What leaves [get_page_content]: a [RequestException] is caught, any
    other exception of the request and the one of [time.sleep] come out. *)
Lemma get_page_content_result (url : string) (st : scraper) :
  match fst (get_page_content w request_delay url st) with
  | Return (Some page) =>
      get w (ticks st) url = Fetched page
      /\ sleep w request_delay = Return tt
  | Return None => exists msg, get w (ticks st) url = RequestException msg
  | Raise e =>
      get w (ticks st) url = OtherException e
      \/ (exists page, get w (ticks st) url = Fetched page)
         /\ sleep w request_delay = Raise e
  end.
Proof.
  unfold get_page_content. simpl.
  destruct (get w (ticks st) url) as [page|msg|e]; simpl; eauto.
  destruct (sleep w request_delay) as [[]|e]; simpl; eauto.
Qed.

(** What [scrape_page] does, case by case. *)
Lemma scrape_page_cases (url : string) (st : scraper) :
  exists (out : result (option page)) (st' : scraper),
    scrape_page w request_delay url st = (Some out, st')
    /\ scraped_data st' = scraped_data st
    /\ visited_urls st' = {[url]} ∪ visited_urls st
    /\ (url ∈ visited_urls st -> out = Return None /\ st' = st)
    /\ match out with
       | Return (Some p) =>
           (url ∉ visited_urls st) /\ p_url p = url
           /\ 50 <= len (p_content p)
           /\ chunk_text (S (String.length (p_content p))) (p_content p)
                1000 200 = Some (Return (p_chunks p))
       | Return None => True
       | Raise e =>
           (url ∉ visited_urls st)
           /\ (get w (ticks st) url = OtherException e
               \/ (exists page, get w (ticks st) url = Fetched page)
                  /\ sleep w request_delay = Raise e)
       end.
Proof.
  unfold scrape_page. destruct (decide (url ∈ visited_urls st)) as [Hin|Hout].
  { exists (Return None), st. split; [reflexivity|]. split; [reflexivity|].
    split; [|auto]. symmetry. apply subseteq_union_1_L.
    now apply singleton_subseteq_l. }
  pose proof (get_page_content_frame url (visit url st)) as [Hv Hd].
  pose proof (get_page_content_result url (visit url st)) as Hres.
  destruct (get_page_content w request_delay url (visit url st))
    as [[[page|]|e] st1]; simpl in Hv, Hd, Hres.
  3:{ exists (Raise e), st1. repeat split; auto; tauto. }
  2:{ exists (Return None), st1. repeat split; auto; tauto. }
  set (content := extract_text_content w page).
  destruct (String.eqb content "" || (len content <? 50)) eqn:Hshort.
  { exists (Return None), st1. repeat split; auto; tauto. }
  apply orb_false_iff in Hshort as [_ Hlen]. apply Z.ltb_ge in Hlen.
  destruct (chunk_text_default_returns content) as [chunks Hchunks].
  rewrite Hchunks. simpl.
  do 2 eexists. split; [reflexivity|]. simpl.
  repeat split; auto; tauto.
Qed.






(** [scrape_page] always ends: the chunking inside it ends for every
    content and raises nothing, so that the only exceptions that leave
    [scrape_page] are those that leave [get_page_content], an exception of
    the request that is no RequestException or the one of [time.sleep]; a
    RequestException gives None. It marks the url as visited and leaves the
    scraped pages alone. A url visited before is not fetched again. A page
    it returns is for a url not visited before, carries that url, has at
    least 50 characters of content, and its chunks are the chunks of that
    content. *)
Theorem scrape_page_outcome (url : string) (st : scraper) :
  exists (out : result (option page)) (st' : scraper),
    scrape_page w request_delay url st = (Some out, st')
    /\ scraped_data st' = scraped_data st
    /\ visited_urls st' = {[url]} ∪ visited_urls st
    /\ (url ∈ visited_urls st -> out = Return None /\ st' = st)
    /\ match out with
       | Return (Some p) =>
           (url ∉ visited_urls st) /\ p_url p = url /\ well_scraped p
       | Return None => True
       | Raise e =>
           (url ∉ visited_urls st)
           /\ (get w (ticks st) url = OtherException e
               \/ (exists page, get w (ticks st) url = Fetched page)
                  /\ sleep w request_delay = Raise e)
       end
    /\ (forall msg, get w (ticks st) url = RequestException msg ->
                    out = Return None).
Proof.
  destruct (scrape_page_cases url st) as [out [st' [H1 [H2 [H3 [H4 H5]]]]]].
  exists out, st'. split; [exact H1|]. split; [exact H2|].
  split; [exact H3|]. split; [exact H4|]. split.
  - destruct out as [[p|]|e]; [|exact I|exact H5].
    destruct H5 as [Ha [Hb Hc]]. unfold well_scraped. tauto.
  - intros msg Hmsg. destruct (decide (url ∈ visited_urls st)) as [Hin|Hout].
    { now apply H4. }
    unfold scrape_page in H1.
    destruct (decide (url ∈ visited_urls st)) as [Hin|_]; [contradiction|].
    unfold get_page_content in H1. simpl in H1. rewrite Hmsg in H1.
    now injection H1 as <- _.
Qed.


(** The links that [extract_links] returns have not been visited, and each
    comes from an anchor that starts with a slash or that starts with http
    and contains the base url; every other anchor is left out. *)
Theorem extract_links_fresh (page : soup) (base : string) (st : scraper)
    (link : string) :
  (forall links x, In x (set_order w links) -> In x links) ->
  In link (extract_links w base_url page base st) ->
  (link ∉ visited_urls st)
  /\ exists href,
       In href (hrefs w page) /\ link_from w base_url base link href.
Proof.
  intros Hset Hin. unfold extract_links in Hin. apply Hset in Hin.
  assert (Hgen : forall anchors links,
    In link (collect_links w base_url anchors base (visited_urls st) links) ->
    In link links
    \/ (link ∉ visited_urls st)
       /\ exists href,
            In href anchors /\ link_from w base_url base link href).
  { induction anchors as [|href rest IH]; intros links H; [now left|].
    simpl in H.
    assert (Hrest : forall links',
      In link (collect_links w base_url rest base (visited_urls st) links') ->
      In link links'
      \/ (link ∉ visited_urls st)
         /\ (exists href0, In href0 (href :: rest)
                           /\ link_from w base_url base link href0)).
    { intros links' H'. apply IH in H' as [?|[? [h [Hh Hc]]]]; [now left|].
      right. split; [assumption|]. exists h. split; [now right|exact Hc]. }
    assert (Hnew : forall l,
      l ∉ visited_urls st -> link_from w base_url base l href ->
      In link (collect_links w base_url rest base (visited_urls st)
                 (links ++ [l])) ->
      In link links
      \/ (link ∉ visited_urls st)
         /\ (exists href0, In href0 (href :: rest)
                           /\ link_from w base_url base link href0)).
    { intros l Hv Hl H'. apply Hrest in H' as [H'|H']; [|now right].
      apply in_app_or in H' as [H'|[<-|[]]]; [now left|right].
      split; [exact Hv|]. exists href. split; [now left|exact Hl]. }
    unfold link_from in Hnew.
    destruct (String.prefix "/" href) eqn:Hslash.
    - destruct (decide (urljoin w base (urljoin w base href)
                        ∈ visited_urls st)) as [Hv|Hv];
        [now apply Hrest|].
      apply (Hnew _ Hv); [|exact H]. now left.
    - destruct (String.prefix "http" href) eqn:Hhttp;
        [destruct (contains base_url href) eqn:Hbase|];
        try (now apply Hrest).
      destruct (decide (urljoin w base href ∈ visited_urls st)) as [Hv|Hv];
        [now apply Hrest|].
      apply (Hnew _ Hv); [|exact H]. right. auto. }
  apply Hgen in Hin as [[]|H]. exact H.
Qed.

End Web.



(** A delay that [time.sleep] refuses: its exception leaves [scrape_page]
    and [scrape_website]. *)
Lemma negative_delay_leaves_scrape_website :
  fst (scrape_page sample_web (-1) "https://www.pmc.gov.in" new_scraper)
  = Some (Raise (ExternalError "sleep length must be non-negative"))
  /\ fst (scrape_website sample_web (-1) "https://www.pmc.gov.in" 2
            new_scraper)
     = Some (Raise (ExternalError "sleep length must be non-negative")).
Proof. split; reflexivity. Qed.

Lemma extract_links_fresh_witness :
  In "https://www.pmc.gov.in/contact"
    (extract_links sample_web "https://www.pmc.gov.in"
       "https://www.pmc.gov.in" "https://www.pmc.gov.in"
       (visit "https://www.pmc.gov.in/about" new_scraper))
  /\ ("https://www.pmc.gov.in/contact"
      ∉ visited_urls (visit "https://www.pmc.gov.in/about" new_scraper)).
Proof.
  assert (Hin : In "https://www.pmc.gov.in/contact"
    (extract_links sample_web "https://www.pmc.gov.in"
       "https://www.pmc.gov.in" "https://www.pmc.gov.in"
       (visit "https://www.pmc.gov.in/about" new_scraper))).
  { vm_compute. left. reflexivity. }
  split; [exact Hin|].
  exact (proj1 (extract_links_fresh sample_web "https://www.pmc.gov.in"
                  "https://www.pmc.gov.in" "https://www.pmc.gov.in"
                  (visit "https://www.pmc.gov.in/about" new_scraper)
                  "https://www.pmc.gov.in/contact"
                  (fun links x H => proj1 (nodup_In string_dec links x) H)
                  Hin)).
Defined.

End ScraperFacts.
